(** * The fraud-detection pipeline: [pipeline/7_get_data_train_upload.py]

    A shallow embedding of the three pipeline components ([get_data],
    [train_model], [upload_model]), of the Kubeflow pipeline definition
    that wires them, and of the submission routine under
    [if __name__ == "__main__"].

    Python objects that the script mutates (the pipeline under
    construction, the scaler, the standard output) live in an explicit
    state; exceptions are values of [exn]; calls that leave the script
    (boto3, kfp, keras) are recorded as events, and the answers of those
    libraries are parameters. *)

From Stdlib Require Import Ascii QArith Qcanon Qround Qabs Qpower Sorted Lqa.
From stdpp Require Import base numbers strings list gmap.

Local Open Scope string_scope.
Local Open Scope list_scope.
Local Open Scope stdpp_scope.

(** ** Exceptions and the state-and-exception monad *)

Inductive exn :=
  | KeyError (key : string)
  | NameError (name : string)
  | IndexError (msg : string)
  | ValueError (msg : string)
  | TypeError (msg : string)
  | FileNotFoundError (path : string)
  | LibraryError (origin msg : string).

Inductive result (A : Type) :=
  | Ok (a : A)
  | Raise (e : exn).
Arguments Ok {A} a.
Arguments Raise {A} e.

(** A statement sequence run over a state [St]: the state reached is kept
    when an exception escapes, so that what happened before it is visible. *)
Definition Prog (St A : Type) : Type := St → result A * St.

#[global] Instance Prog_ret {St} : MRet (Prog St) := λ A a s, (Ok a, s).
#[global] Instance Prog_bind {St} : MBind (Prog St) := λ A B f m s,
  match m s with
  | (Ok a, s') => f a s'
  | (Raise e, s') => (Raise e, s')
  end.

Definition raise {St A} (e : exn) : Prog St A := λ s, (Raise e, s).
Definition lift_result {St A} (r : result A) : Prog St A := λ s, (r, s).

(** What a run leaves behind, in order: the lines printed, and the calls
    [Call] that leave the script (files, libraries, remote services). *)
Inductive event (Call : Type) :=
  | Printed (line : string)
  | Extern (c : Call).
Arguments Printed {Call} line.
Arguments Extern {Call} c.

Definition emit {Call} (e : event Call) : Prog (list (event Call)) unit :=
  λ tr, (Ok tt, tr ++ [e]).

Definition print {Call} (line : string) : Prog (list (event Call)) unit :=
  emit (Printed line).

(** ** Python strings *)

(** [needle in hay]. *)
Fixpoint str_in (needle hay : string) : bool :=
  String.prefix needle hay ||
  match hay with
  | EmptyString => false
  | String _ hay' => str_in needle hay'
  end.

(** The characters [str.rstrip()] removes. A string is a text of code
    points below 256; among these the whitespace of Python is 9-13, 28-32,
    133 and 160. *)
Definition is_space (c : ascii) : bool :=
  let n := nat_of_ascii c in
  (((9 <=? n) && (n <=? 13)) || ((28 <=? n) && (n <=? 32)) ||
   (n =? 133) || (n =? 160))%nat.

Fixpoint rstrip (s : string) : string :=
  match s with
  | EmptyString => EmptyString
  | String c s' =>
      match rstrip s' with
      | EmptyString => if is_space c then EmptyString else String c EmptyString
      | t => String c t
      end
  end.

(** [str(x)] for a value that may be [None]. *)
Definition str_of_optional (o : option string) : string :=
  match o with
  | Some s => s
  | None => "None"
  end.

(** ** The process environment and the file system *)

Inductive node :=
  | File (content : string)
  | Dir.

Record world := World {
  environ : gmap string string;
  fs : gmap string node
}.

(** [os.environ[key]] *)
Definition environ_getitem {St} (w : world) (key : string) : Prog St string :=
  match environ w !! key with
  | Some v => mret v
  | None => raise (KeyError key)
  end.

(** [os.environ.get(key)] *)
Definition environ_get (w : world) (key : string) : option string :=
  environ w !! key.

(** [os.path.isfile(path)] *)
Definition isfile (w : world) (path : string) : bool :=
  match fs w !! path with
  | Some (File _) => true
  | _ => false
  end.

(** ** The kfp DSL: components, tasks and the pipeline under construction *)

Module Kfp.

Record component := Component {
  name : string;
  base_image : string;
  packages_to_install : list string;
  inputs : list string;
  outputs : list string
}.

(** An output of a task, as [task.outputs[key]] returns it. *)
Record channel := Channel {
  producer : nat;
  output_name : string
}.

Record secret_as_env := SecretAsEnv {
  secret_name : string;
  secret_key_to_env : gmap string string
}.

Record task := Task {
  component_ref : component;
  arguments : gmap string channel;
  env : gmap string string;
  secrets : list secret_as_env
}.

(** The pipeline being declared: its tasks, in the order of creation. A
    task object is the index of its entry. *)
Abbreviation pipeline_spec := (list task).

(** Calling a component inside a pipeline function creates a task. kfp
    refuses a call whose keyword arguments are not the component's inputs. *)
Definition call (c : component) (kwargs : gmap string channel)
  : Prog pipeline_spec nat := λ tasks,
  if decide (dom kwargs = list_to_set (inputs c))
  then (Ok (length tasks), tasks ++ [Task c kwargs ∅ []])
  else (Raise (TypeError (name c)), tasks).

(** [task.outputs[key]] *)
Definition outputs_getitem (t : nat) (key : string)
  : Prog pipeline_spec channel := λ tasks,
  match tasks !! t with
  | Some tk =>
      if decide (key ∈ outputs (component_ref tk))
      then (Ok (Channel t key), tasks)
      else (Raise (KeyError key), tasks)
  | None => (Raise (KeyError key), tasks)
  end.

(** [task.set_env_variable(name=..., value=...)] *)
Definition set_env_variable (t : nat) (n v : string)
  : Prog pipeline_spec unit := λ tasks,
  (Ok tt,
   alter (λ tk, Task (component_ref tk) (arguments tk)
                     (<[n:=v]> (env tk)) (secrets tk)) t tasks).

(** [kubernetes.use_secret_as_env(task=..., secret_name=...,
    secret_key_to_env=...)] *)
Definition use_secret_as_env (t : nat) (sn : string)
    (key_to_env : gmap string string) : Prog pipeline_spec unit := λ tasks,
  (Ok tt,
   alter (λ tk, Task (component_ref tk) (arguments tk) (env tk)
                     (secrets tk ++ [SecretAsEnv sn key_to_env])) t tasks).

(** What [kfp] does with a pipeline function: run it on an empty pipeline. *)
Definition compile (f : Prog pipeline_spec unit) : result pipeline_spec :=
  match f [] with
  | (Ok _, tasks) => Ok tasks
  | (Raise e, _) => Raise e
  end.

(** The artifact dependencies of a pipeline: producer task, output name,
    consumer task, input name. *)
Definition task_edges (consumer : nat) (tk : task)
  : list (nat * string * nat * string) :=
  (λ kv, (producer kv.2, output_name kv.2, consumer, kv.1))
    <$> map_to_list (arguments tk).

Definition edges (p : pipeline_spec) : list (nat * string * nat * string) :=
  mjoin (imap task_edges p).

End Kfp.

(** ** The components' interfaces

    The decorators [@dsl.component] turn the three functions into
    components; an [InputPath] parameter is an input, an [OutputPath]
    parameter an output. *)

Definition runtime_image : string :=
  "quay.io/modh/runtime-images:runtime-cuda-tensorflow-ubi9-python-3.9-2024a-20240523".

Definition get_data_component : Kfp.component :=
  Kfp.Component "get_data" runtime_image []
    [] ["train_data_output_path"; "validate_data_output_path"].

Definition train_model_component : Kfp.component :=
  Kfp.Component "train_model" runtime_image
    ["onnx==1.17.0"; "onnxruntime==1.19.2"; "tf2onnx==1.16.1"]
    ["train_data_input_path"; "validate_data_input_path"]
    ["model_output_path"].

Definition upload_model_component : Kfp.component :=
  Kfp.Component "upload_model" runtime_image
    ["boto3==1.35.55"; "botocore==1.35.55"]
    ["input_model_path"] [].

(** ** [pipeline] *)

Definition pipeline : Prog Kfp.pipeline_spec unit :=
  get_data_task ← Kfp.call get_data_component ∅;
  train_data_csv_file ←
    Kfp.outputs_getitem get_data_task "train_data_output_path";
  validate_data_csv_file ←
    Kfp.outputs_getitem get_data_task "validate_data_output_path";
  train_model_task ←
    Kfp.call train_model_component
      (<["train_data_input_path" := train_data_csv_file]>
       (<["validate_data_input_path" := validate_data_csv_file]> ∅));
  onnx_file ← Kfp.outputs_getitem train_model_task "model_output_path";
  upload_model_task ←
    Kfp.call upload_model_component (<["input_model_path" := onnx_file]> ∅);
  Kfp.set_env_variable upload_model_task "S3_KEY" "models/fraud/1/model.onnx";;
  Kfp.use_secret_as_env upload_model_task "frauddetection-storage"
    (<["AWS_ACCESS_KEY_ID" := "AWS_ACCESS_KEY_ID"]>
     (<["AWS_SECRET_ACCESS_KEY" := "AWS_SECRET_ACCESS_KEY"]>
      (<["AWS_DEFAULT_REGION" := "AWS_DEFAULT_REGION"]>
       (<["AWS_S3_BUCKET" := "AWS_S3_BUCKET"]>
        (<["AWS_S3_ENDPOINT" := "AWS_S3_ENDPOINT"]> ∅))))).

(** ** [get_data] *)

Inductive fetch_call :=
  | UrlRetrieve (url filename : string).

(** [urllib.request.urlretrieve(url, filename)]; [net] is the answer of the
    network. *)
Definition urlretrieve (net : string → result unit) (url filename : string)
  : Prog (list (event fetch_call)) unit :=
  emit (Extern (UrlRetrieve url filename));; lift_result (net url).

Definition get_data (net : string → result unit)
    (train_data_output_path validate_data_output_path : string)
  : Prog (list (event fetch_call)) unit :=
  print "starting download...";;
  print "downloading training data";;
  urlretrieve net
    "https://raw.githubusercontent.com/rh-aiservices-bu/fraud-detection/main/data/train.csv"
    train_data_output_path;;
  print "train data downloaded";;
  print "downloading validation data";;
  urlretrieve net
    "https://raw.githubusercontent.com/rh-aiservices-bu/fraud-detection/main/data/validate.csv"
    validate_data_output_path;;
  print "validation data downloaded".

(** ** boto3, as far as [upload_model] uses it *)

Module Boto3.

Record Session := MkSession {
  aws_access_key_id : option string;
  aws_secret_access_key : option string
}.

Record Config := MkConfig { signature_version : string }.

Record ServiceResource := MkResource {
  session : Session;
  service_name : string;
  config : Config;
  endpoint_url : option string;
  region_name : option string
}.

Record Bucket := MkBucket {
  resource : ServiceResource;
  bucket_name : option string
}.

(** The one request [upload_model] can send to the storage service. *)
Inductive request :=
  | PutObject (b : Bucket) (filename : string) (key : option string).

(** [bucket.upload_file] either refuses its arguments locally, or sends
    the request and gets the service's answer. *)
Inductive upload_outcome :=
  | Rejected (e : exn)
  | Sent (response : result unit).

(** The library's side of each call: boto3 is not part of the repository,
    so what it accepts is a parameter of the program. The library runs in
    the process of the step: its answers may depend on the environment and
    the files as well as on the arguments. *)
Record library := Library {
  check_session : world → option string → option string → result unit;
  check_resource :
    world → Session → string → Config → option string → option string →
    result unit;
  check_bucket : world → ServiceResource → option string → result unit;
  transfer : world → Bucket → string → option string → upload_outcome
}.

Section Calls.
Context {St : Type} (lib : library) (w : world).

(** [boto3.session.Session(aws_access_key_id=..., aws_secret_access_key=...)] *)
Definition new_session (ak sk : option string) : Prog St Session :=
  lift_result (check_session lib w ak sk);; mret (MkSession ak sk).

(** [session.resource(service, config=..., endpoint_url=..., region_name=...)] *)
Definition new_resource (s : Session) (svc : string) (c : Config)
    (endpoint region : option string) : Prog St ServiceResource :=
  lift_result (check_resource lib w s svc c endpoint region);;
  mret (MkResource s svc c endpoint region).

(** [s3_resource.Bucket(name)] *)
Definition new_bucket (r : ServiceResource) (n : option string)
  : Prog St Bucket :=
  lift_result (check_bucket lib w r n);; mret (MkBucket r n).
End Calls.

(** [bucket.upload_file(filename, key)] *)
Definition upload_file (lib : library) (w : world) (b : Bucket)
    (filename : string) (key : option string)
  : Prog (list (event request)) unit :=
  match transfer lib w b filename key with
  | Rejected e => raise e
  | Sent response =>
      emit (Extern (PutObject b filename key));; lift_result response
  end.

(** Where boto3 finds credentials that were not passed to the session:
    here, a shared credentials file named by the environment. *)
Definition has_credentials (w : world) (s : Session) : bool :=
  match aws_access_key_id s, aws_secret_access_key s with
  | Some _, Some _ => true
  | _, _ =>
      match environ w !! "AWS_SHARED_CREDENTIALS_FILE" with
      | Some path => isfile w path
      | None => false
      end
  end.

(** boto3 as its documentation describes it, in front of a service that
    accepts the upload. Sessions and resources are lazy: an endpoint or a
    region that is [None] falls back to the library's default, an empty
    endpoint is invalid. A bucket needs a name. An upload needs its file,
    a key and credentials before anything is sent. *)
Definition documented : library := {|
  check_session := λ _ _ _, Ok tt;
  check_resource := λ _ _ _ _ endpoint _,
    match endpoint with
    | Some "" => Raise (ValueError "Invalid endpoint: ")
    | _ => Ok tt
    end;
  check_bucket := λ _ _ n,
    match n with
    | Some _ => Ok tt
    | None => Raise (ValueError "Required parameter name not set")
    end;
  transfer := λ w b filename key,
    if isfile w filename then
      match key with
      | Some _ =>
          if has_credentials w (session (resource b))
          then Sent (Ok tt)
          else Rejected (LibraryError "botocore" "NoCredentialsError")
      | None => Rejected (LibraryError "botocore" "ParamValidationError")
      end
    else Rejected (FileNotFoundError filename)
|}.

End Boto3.

(** ** [upload_model] *)

Definition upload_model (lib : Boto3.library) (w : world)
    (input_model_path : string) : Prog (list (event Boto3.request)) unit :=
  let aws_access_key_id := environ_get w "AWS_ACCESS_KEY_ID" in
  let aws_secret_access_key := environ_get w "AWS_SECRET_ACCESS_KEY" in
  let endpoint_url := environ_get w "AWS_S3_ENDPOINT" in
  let region_name := environ_get w "AWS_DEFAULT_REGION" in
  let bucket_name := environ_get w "AWS_S3_BUCKET" in
  let s3_key := environ_get w "S3_KEY" in
  session ← Boto3.new_session lib w aws_access_key_id aws_secret_access_key;
  s3_resource ←
    Boto3.new_resource lib w session "s3" (Boto3.MkConfig "s3v4")
      endpoint_url region_name;
  bucket ← Boto3.new_bucket lib w s3_resource bucket_name;
  print ("Uploading " +:+ str_of_optional s3_key);;
  Boto3.upload_file lib w bucket input_model_path s3_key.

(** ** The kfp client, as far as the submission routine uses it *)

Module KfpClient.

Record Client := MkClient {
  host : string;
  existing_token : string;
  ssl_ca_cert : option string
}.

Inductive call :=
  | ReadFile (path : string)
  | NewClient (c : Client)
  | CreateRun (c : Client) (p : Kfp.pipeline_spec) (experiment_name : string).

(** The answers of the kfp library and of the endpoint behind it. *)
Record service := Service {
  connect : Client → result unit;
  create_run : Client → Kfp.pipeline_spec → string → result string
}.

End KfpClient.

(** [with open(path) as f: f.read()] *)
Definition open_read (w : world) (path : string)
  : Prog (list (event KfpClient.call)) string :=
  match fs w !! path with
  | Some (File content) =>
      emit (Extern (KfpClient.ReadFile path));; mret content
  | _ => raise (FileNotFoundError path)
  end.

(** Reading a global name that may never have been assigned. *)
Definition load_name {St A} (name : string) (v : option A) : Prog St A :=
  match v with
  | Some a => mret a
  | None => raise (NameError name)
  end.

(** [kfp.Client(host=..., existing_token=..., ssl_ca_cert=...)] *)
Definition kfp_Client (kfp : KfpClient.service) (h tok : string)
    (ca : option string)
  : Prog (list (event KfpClient.call)) KfpClient.Client :=
  let c := KfpClient.MkClient h tok ca in
  emit (Extern (KfpClient.NewClient c));;
  lift_result (KfpClient.connect kfp c);;
  mret c.

(** [client.create_run_from_pipeline_func(f, arguments={},
    experiment_name=...)]: the pipeline function is compiled, then sent. *)
Definition create_run_from_pipeline_func (kfp : KfpClient.service)
    (c : KfpClient.Client) (f : Prog Kfp.pipeline_spec unit)
    (experiment_name : string)
  : Prog (list (event KfpClient.call)) string :=
  p ← lift_result (Kfp.compile f);
  emit (Extern (KfpClient.CreateRun c p experiment_name));;
  lift_result (KfpClient.create_run kfp c p experiment_name).

(** ** The submission routine ([if __name__ == "__main__":]) *)

Definition sa_token_path : string :=
  "/run/secrets/kubernetes.io/serviceaccount/token".

Definition sa_ca_cert : string :=
  "/run/secrets/kubernetes.io/serviceaccount/service-ca.crt".

(** Lines 182-184: [bearer_token] is assigned only when the token file is
    there; [None] stands for the name being unbound. *)
Definition read_bearer_token (w : world)
  : Prog (list (event KfpClient.call)) (option string) :=
  if isfile w sa_token_path
  then content ← open_read w sa_token_path; mret (Some (rstrip content))
  else mret None.

(** Lines 189-194. *)
Definition choose_ssl_ca_cert (w : world) (kubeflow_endpoint : string)
  : Prog (list (event KfpClient.call)) (option string) :=
  if isfile w sa_ca_cert && str_in "svc" kubeflow_endpoint
  then mret (Some sa_ca_cert)
  else print "there is no ssl_ca_cert";; mret None.

Definition main (kfp : KfpClient.service) (w : world)
  : Prog (list (event KfpClient.call)) unit :=
  kubeflow_endpoint ← environ_getitem w "KUBEFLOW_ENDPOINT";
  print ("Connecting to kfp: " +:+ kubeflow_endpoint);;
  bearer_token ← read_bearer_token w;
  ssl_ca_cert ← choose_ssl_ca_cert w kubeflow_endpoint;
  print kubeflow_endpoint;;
  token ← load_name "bearer_token" bearer_token;
  print token;;
  print (str_of_optional ssl_ca_cert);;
  client ← kfp_Client kfp kubeflow_endpoint token ssl_ca_cert;
  run_id ← create_run_from_pipeline_func kfp client pipeline "fraud-detection";
  print ("Starting pipeline run with run_id: " +:+ run_id).

(** ** Tables, arrays and the numeric libraries of [train_model]

    A number is a rational ([Qc]): every finite float64 is one. The
    arithmetic that produces numbers is a parameter of the numeric code: it
    can be exact, or round as float64 does. What scikit-learn computes of a
    column (its mean, its variance, its scale) is a parameter too. *)

Abbreviation matrix := (list (list Qc)).

Definition Qc_of_nat (n : nat) : Qc := Qc_of_Z (Z.of_nat n).

Module Pandas.

Record DataFrame := MkDataFrame {
  columns : list string;
  values : matrix
}.

(** Every row has one cell per column. *)
Definition well_formed (df : DataFrame) : Prop :=
  Forall (λ r, length r = length (columns df)) (values df).

Definition take {A} (d : A) (idxs : list nat) (r : list A) : list A :=
  (λ i, nth i r d) <$> idxs.

(** [df.iloc[:, idxs]] for a list of positions. *)
Definition iloc_columns (df : DataFrame) (idxs : list nat)
  : result DataFrame :=
  if decide (Forall (λ i, i < length (columns df))%nat idxs)
  then Ok (MkDataFrame (take "" idxs (columns df))
                       (take 0%Qc idxs <$> values df))
  else Raise (IndexError "positional indexers are out-of-bounds").

(** [pd.read_csv(path)], over the tables the files hold. *)
Definition read_csv (files : gmap string DataFrame) (path : string)
  : result DataFrame :=
  match files !! path with
  | Some df => Ok df
  | None => Raise (FileNotFoundError path)
  end.

End Pandas.

Module Numpy.

(** The four operations of an arithmetic on numbers. *)
Record arithmetic := Arithmetic {
  add : Qc → Qc → Qc;
  sub : Qc → Qc → Qc;
  mul : Qc → Qc → Qc;
  div : Qc → Qc → Qc
}.

Definition exact : arithmetic := Arithmetic Qcplus Qcminus Qcmult Qcdiv.

(** Rounding to the nearest integer, ties to the even one. *)
Definition round_half_even (q : Q) : Z :=
  let f := Qfloor q in
  match (q - inject_Z f ?= 1 # 2)%Q with
  | Lt => f
  | Gt => (f + 1)%Z
  | Eq => if Z.even f then f else (f + 1)%Z
  end.

(** For [q > 0], the exponent [e] with [2^e <= q < 2^(e+1)]. *)
Definition binary_exponent (q : Q) : Z :=
  let e := (Z.log2 (Qnum q) - Z.log2 (Z.pos (Qden q)))%Z in
  if Qle_bool (Qpower 2 e) q then e else (e - 1)%Z.

(** Rounding to the nearest float64: 53 significant bits, ties to even.
    The exponent is not bounded: overflow and subnormal numbers are left
    out. *)
Definition round64 (q : Qc) : Qc :=
  if decide (q = 0%Qc) then 0%Qc else
  let a := Qabs q in
  let e := binary_exponent a in
  let m := round_half_even (a * Qpower 2 (52 - e))%Q in
  let r := (inject_Z m * Qpower 2 (e - 52))%Q in
  Q2Qc (if Qle_bool 0 q then r else (- r)%Q).

(** The float64 operations: the exact result, rounded. Division by zero,
    which gives an infinity or a NaN in float64, is left out as well: the
    quotient is then that of [Qc]. *)
Definition binary64 : arithmetic :=
  Arithmetic (λ x y, round64 (x + y)) (λ x y, round64 (x - y))
             (λ x y, round64 (x * y)) (λ x y, round64 (x / y)).

(** [a.ravel()] *)
Definition ravel (a : matrix) : list Qc := mjoin a.

Fixpoint insert_unique (x : Qc) (l : list Qc) : list Qc :=
  match l with
  | [] => [x]
  | y :: l' =>
      match (x ?= y)%Qc with
      | Lt => x :: l
      | Eq => l
      | Gt => y :: insert_unique x l'
      end
  end.

(** [np.unique(a)]: the distinct values, ascending. *)
Definition unique (a : list Qc) : list Qc := foldr insert_unique [] a.

End Numpy.

Module Sklearn.

(** [np.bincount] of the encoded labels, at the class [c]. *)
Definition count (c : Qc) (y : list Qc) : nat :=
  length (filter (λ v, v = c) y).

Definition index_of (c : Qc) (l : list Qc) : option nat :=
  fst <$> list_find (λ v, v = c) l.

(** [class_weight.compute_class_weight('balanced', classes=..., y=...)]:
    [len(y) / (len(le.classes_) * np.bincount(y_ind).astype(np.float64))],
    one product and one quotient of the arithmetic per class. The lengths
    and the counts are numbers as they are: an integer below [2^53] is a
    float64. *)
Definition compute_class_weight_balanced (ar : Numpy.arithmetic)
    (classes y : list Qc) : result (list Qc) :=
  let le_classes := Numpy.unique y in
  if decide (Forall (λ v, v ∈ classes) y) then
    if decide (Forall (λ c, c ∈ le_classes) classes) then
      let recip_freq :=
        (λ c, Numpy.div ar (Qc_of_nat (length y))
                (Numpy.mul ar (Qc_of_nat (length le_classes))
                   (Qc_of_nat (count c y))))
          <$> le_classes in
      Ok ((λ c, default 0%Qc (i ← index_of c le_classes; recip_freq !! i))
            <$> classes)
    else Raise (ValueError "classes should have valid labels that are in y")
  else Raise (ValueError
                "classes should include all valid labels that can be in y").

(** The attributes a fitted [StandardScaler] carries. *)
Record fitted := Fitted {
  mean_ : list Qc;
  var_ : list Qc;
  scale_ : list Qc
}.

(** What [StandardScaler.fit] computes of one column: its mean, its
    variance, and the scale to divide by, which it computes from the number
    of samples, the mean and the variance (the square root of the variance,
    or 1 for a column it takes as constant). *)
Record statistics := Statistics {
  col_mean : list Qc → Qc;
  col_var : list Qc → Qc;
  col_scale : nat → Qc → Qc → Qc
}.

Definition column (j : nat) (X : matrix) : list Qc :=
  (λ r, nth j r 0%Qc) <$> X.

Definition n_features (X : matrix) : nat :=
  match X with
  | [] => 0
  | r :: _ => length r
  end.

(** The statistics in exact arithmetic; [fsqrt] is the square root. *)
Definition sum (l : list Qc) : Qc := foldr Qcplus 0%Qc l.

Definition mean (l : list Qc) : Qc := (sum l / Qc_of_nat (length l))%Qc.

Definition variance (l : list Qc) : Qc :=
  let m := mean l in
  mean ((λ v, (v - m) * (v - m))%Qc <$> l).

(** The machine epsilon of float64, [2^-52]. *)
Definition eps : Qc := Q2Qc (1 # 4503599627370496).

(** [_is_constant_feature(var, mean, n_samples)]: the variance is within
    the rounding noise of the computation of a constant column. *)
Definition is_constant_feature (n : nat) (m v : Qc) : bool :=
  let bound :=
    (Qc_of_nat n * eps * v
     + (Qc_of_nat n * m * eps) * (Qc_of_nat n * m * eps))%Qc in
  bool_decide (v ≤ bound)%Qc.

(** The scale is 1 for a column taken as constant, else the square root of
    the variance. *)
Definition exact_statistics (fsqrt : Qc → Qc) : statistics :=
  Statistics mean variance
    (λ n m v, if is_constant_feature n m v then 1%Qc else fsqrt v).

(** [StandardScaler.fit] *)
Definition fit_params (st : statistics) (X : matrix) : result fitted :=
  match X with
  | [] => Raise (ValueError "Found array with 0 sample(s)")
  | _ =>
      let cols := (λ j, column j X) <$> seq 0 (n_features X) in
      let means := col_mean st <$> cols in
      let vars := col_var st <$> cols in
      Ok (Fitted means vars (zip_with (col_scale st (length X)) means vars))
  end.

(** One row of [StandardScaler.transform]: [X -= mean_; X /= scale_]. *)
Definition transform_row (ar : Numpy.arithmetic) (s : fitted) (r : list Qc)
  : list Qc :=
  zip_with (λ v ms, Numpy.div ar (Numpy.sub ar v ms.1) ms.2) r
    (zip (mean_ s) (scale_ s)).

(** [StandardScaler.transform], on the state [s] of the scaler. *)
Definition transform_with (ar : Numpy.arithmetic) (s : option fitted)
    (X : matrix) : result matrix :=
  match s with
  | None => Raise (ValueError "This StandardScaler instance is not fitted yet")
  | Some p =>
      match X with
      | [] => Raise (ValueError "Found array with 0 sample(s)")
      | _ =>
          if decide (n_features X = length (mean_ p))
          then Ok (transform_row ar p <$> X)
          else Raise (ValueError "X has a different number of features")
      end
  end.

End Sklearn.

Module Keras.

Inductive activation := relu | sigmoid.

Inductive layer :=
  | Dense (units : nat) (act : option activation) (input_dim : option nat)
  | Dropout (rate : Qc)
  | BatchNormalization
  | Activation (a : activation).

Record compile_arguments := CompileArguments {
  optimizer : string;
  loss : string;
  metrics : list string
}.

Record Sequential := MkSequential {
  layers : list layer;
  compiled : option compile_arguments
}.

(** [model.add(l)] *)
Definition add (m : Sequential) (l : layer) : Sequential :=
  MkSequential (layers m ++ [l]) (compiled m).

(** [model.compile(optimizer=..., loss=..., metrics=...)] *)
Definition compile (m : Sequential) (o l : string) (ms : list string)
  : Sequential :=
  MkSequential (layers m) (Some (CompileArguments o l ms)).

Record fit_arguments := FitArguments {
  x : matrix;
  y : Pandas.DataFrame;
  epochs : nat;
  validation_data : matrix * Pandas.DataFrame;
  verbose : bool;
  class_weight : gmap nat Qc
}.

End Keras.

(** ** [train_model] *)

Inductive train_call :=
  | ReadCsv (path : string)
  | ScalerFit (X : matrix)
  | ScalerTransform (X : matrix)
  | Mkdir (path : string)
  | PickleDump (path : string) (obj : option Sklearn.fitted)
  | ModelSummary (m : Keras.Sequential)
  | ModelFit (m : Keras.Sequential) (a : Keras.fit_arguments)
  | FromKeras (m : Keras.Sequential)
  | OnnxSave (m : Keras.Sequential) (path : string).

(** What is outside the script: the arithmetic and the statistics of the
    numeric libraries, and the answers of the calls that create the
    directory, write the pickle, train the network, convert it and save
    it. An event records that the call was made; the answer says whether
    it returned or raised. *)
Record libraries := Libraries {
  arith : Numpy.arithmetic;
  stats : Sklearn.statistics;
  mkdir : string → result unit;
  pickle_dump : string → option Sklearn.fitted → result unit;
  model_fit : Keras.Sequential → Keras.fit_arguments → result unit;
  from_keras : Keras.Sequential → result unit;
  onnx_save : Keras.Sequential → string → result unit
}.

(** The scaler object ([None] until it is fitted) and what the run has
    done so far. *)
Record train_state := TrainState {
  scaler : option Sklearn.fitted;
  history : list (event train_call)
}.

Definition fresh : train_state := TrainState None [].

Definition record (c : train_call) : Prog train_state unit :=
  λ s, (Ok tt, TrainState (scaler s) (history s ++ [Extern c])).

Definition say (line : string) : Prog train_state unit :=
  λ s, (Ok tt, TrainState (scaler s) (history s ++ [Printed line])).

(** [scaler = StandardScaler()] *)
Definition new_scaler : Prog train_state unit :=
  λ s, (Ok tt, TrainState None (history s)).

Definition set_scaler (p : Sklearn.fitted) : Prog train_state unit :=
  λ s, (Ok tt, TrainState (Some p) (history s)).

Definition get_scaler : Prog train_state (option Sklearn.fitted) :=
  λ s, (Ok (scaler s), s).

Section Trainer.
Variable lib : libraries.
Variable files : gmap string Pandas.DataFrame.

(** [scaler.fit(X)]: the only operation that assigns the parameters. *)
Definition scaler_fit (X : matrix) : Prog train_state unit :=
  record (ScalerFit X);;
  p ← lift_result (Sklearn.fit_params (stats lib) X);
  set_scaler p.

(** [scaler.transform(X)] *)
Definition scaler_transform (X : matrix) : Prog train_state matrix :=
  record (ScalerTransform X);;
  s ← get_scaler;
  lift_result (Sklearn.transform_with (arith lib) s X).

(** [scaler.fit_transform(X)] *)
Definition scaler_fit_transform (X : matrix) : Prog train_state matrix :=
  scaler_fit X;; scaler_transform X.

(** [Path(path).mkdir(parents=True, exist_ok=True)] *)
Definition make_directory (path : string) : Prog train_state unit :=
  record (Mkdir path);; lift_result (mkdir lib path).

(** [with open(path, "wb") as handle: pickle.dump(scaler, handle)] *)
Definition pickle_dump_scaler (path : string) : Prog train_state unit :=
  s ← get_scaler;
  record (PickleDump path s);;
  lift_result (pickle_dump lib path s).

(** [model.fit(...)] *)
Definition fit_model (m : Keras.Sequential) (a : Keras.fit_arguments)
  : Prog train_state unit :=
  record (ModelFit m a);; lift_result (model_fit lib m a).

(** [tf2onnx.convert.from_keras(model)] *)
Definition convert_model (m : Keras.Sequential) : Prog train_state unit :=
  record (FromKeras m);; lift_result (from_keras lib m).

(** [onnx.save(model_proto, path)] *)
Definition save_model (m : Keras.Sequential) (path : string)
  : Prog train_state unit :=
  record (OnnxSave m path);; lift_result (onnx_save lib m path).

Definition feature_indexes : list nat := [1; 2; 4; 5; 6].
Definition label_indexes : list nat := [7].

(** Lines 65-67, and again 69-71: read a file, take the label column,
    then the feature columns. *)
Definition load_dataset (path : string)
  : Prog train_state (Pandas.DataFrame * Pandas.DataFrame) :=
  record (ReadCsv path);;
  X ← lift_result (Pandas.read_csv files path);
  y ← lift_result (Pandas.iloc_columns X label_indexes);
  X ← lift_result (Pandas.iloc_columns X feature_indexes);
  mret (X, y).

(** The dictionary [{i: a[i] for i in range(len(a))}]. *)
Definition dict_of_array (a : list Qc) : gmap nat Qc :=
  list_to_map ((λ i, (i, nth i a 0%Qc)) <$> seq 0 (length a)).

(** Lines 85-86. *)
Definition class_weights_of (ar : Numpy.arithmetic)
    (y_train : Pandas.DataFrame) : result (gmap nat Qc) :=
  match
    Sklearn.compute_class_weight_balanced ar
      (Numpy.unique (Numpy.ravel (Pandas.values y_train)))
      (Numpy.ravel (Pandas.values y_train))
  with
  | Ok class_weights => Ok (dict_of_array class_weights)
  | Raise e => Raise e
  end.

(** Lines 90-102. *)
Definition build_model : Keras.Sequential :=
  let dropout := Q2Qc (2 # 10) in
  let model := Keras.MkSequential [] None in
  let model :=
    Keras.add model
      (Keras.Dense 32 (Some Keras.relu) (Some (length feature_indexes))) in
  let model := Keras.add model (Keras.Dropout dropout) in
  let model := Keras.add model (Keras.Dense 32 None None) in
  let model := Keras.add model Keras.BatchNormalization in
  let model := Keras.add model (Keras.Activation Keras.relu) in
  let model := Keras.add model (Keras.Dropout dropout) in
  let model := Keras.add model (Keras.Dense 32 None None) in
  let model := Keras.add model Keras.BatchNormalization in
  let model := Keras.add model (Keras.Activation Keras.relu) in
  let model := Keras.add model (Keras.Dropout dropout) in
  let model :=
    Keras.add model (Keras.Dense 1 (Some Keras.sigmoid) None) in
  Keras.compile model "adam" "binary_crossentropy" ["accuracy"].

Definition train_model
    (train_data_input_path validate_data_input_path : string)
    (model_output_path : string) : Prog train_state unit :=
  '(X_train, y_train) ← load_dataset train_data_input_path;
  '(X_val, y_val) ← load_dataset validate_data_input_path;
  new_scaler;;
  X_train ← scaler_fit_transform (Pandas.values X_train);
  make_directory "artifact";;
  pickle_dump_scaler "artifact/scaler.pkl";;
  class_weights ← lift_result (class_weights_of (arith lib) y_train);
  let model := build_model in
  record (ModelSummary model);;
  let epochs := 2 in
  X_val_scaled ← scaler_transform (Pandas.values X_val);
  fit_model model
    (Keras.FitArguments X_train y_train epochs
       (X_val_scaled, y_val) true class_weights);;
  convert_model model;;
  say model_output_path;;
  save_model model model_output_path.
End Trainer.

(** ** Vocabulary of the properties *)

(** The variables [upload_model] reads. *)
Definition credential_variables : list string :=
  ["AWS_ACCESS_KEY_ID"; "AWS_SECRET_ACCESS_KEY"; "AWS_S3_ENDPOINT";
   "AWS_DEFAULT_REGION"; "AWS_S3_BUCKET"; "S3_KEY"].

Definition credential_missing (w : world) : Prop :=
  ∃ v, v ∈ credential_variables ∧ environ w !! v = None.

(** A run that ends in an exception without having sent anything. *)
Definition fails_before_network {Call}
    (out : result unit * list (event Call)) : Prop :=
  (∃ e, out.1 = Raise e) ∧ ∀ c, Extern c ∉ out.2.

(** The objects [upload_model] builds from the environment. *)
Definition session_of (w : world) : Boto3.Session :=
  Boto3.MkSession (environ w !! "AWS_ACCESS_KEY_ID")
                  (environ w !! "AWS_SECRET_ACCESS_KEY").

Definition resource_of (w : world) : Boto3.ServiceResource :=
  Boto3.MkResource (session_of w) "s3" (Boto3.MkConfig "s3v4")
    (environ w !! "AWS_S3_ENDPOINT") (environ w !! "AWS_DEFAULT_REGION").

Definition bucket_of (w : world) : Boto3.Bucket :=
  Boto3.MkBucket (resource_of w) (environ w !! "AWS_S3_BUCKET").

(** The library refuses, before sending anything, what the step hands it. *)
Definition library_refuses (lib : Boto3.library) (w : world)
    (path : string) : Prop :=
  (∃ e, Boto3.check_session lib w (environ w !! "AWS_ACCESS_KEY_ID")
          (environ w !! "AWS_SECRET_ACCESS_KEY") = Raise e) ∨
  (∃ e, Boto3.check_resource lib w (session_of w) "s3"
          (Boto3.MkConfig "s3v4")
          (environ w !! "AWS_S3_ENDPOINT")
          (environ w !! "AWS_DEFAULT_REGION") = Raise e) ∨
  (∃ e, Boto3.check_bucket lib w (resource_of w)
          (environ w !! "AWS_S3_BUCKET") = Raise e) ∨
  (∃ e, Boto3.transfer lib w (bucket_of w) path (environ w !! "S3_KEY")
          = Boto3.Rejected e).

(** The keys of the storage secret. *)
Definition secret_keys : list string :=
  ["AWS_ACCESS_KEY_ID"; "AWS_SECRET_ACCESS_KEY"; "AWS_DEFAULT_REGION";
   "AWS_S3_BUCKET"; "AWS_S3_ENDPOINT"].

(** Sample worlds and services. *)
Definition accepting_service : KfpClient.service :=
  KfpClient.Service (λ _, Ok tt) (λ _ _ _, Ok "run-1").

Definition world_without_endpoint_variable : world :=
  World (<["AWS_ACCESS_KEY_ID" := "minio"]>
         (<["AWS_SECRET_ACCESS_KEY" := "minio123"]>
          (<["AWS_DEFAULT_REGION" := "us-east-1"]>
           (<["AWS_S3_BUCKET" := "models"]>
            (<["S3_KEY" := "models/fraud/1/model.onnx"]> ∅)))))
        (<["/tmp/model.onnx" := File "onnx"]> ∅).

Definition world_in_cluster : world :=
  World (<["KUBEFLOW_ENDPOINT" := "https://ds-pipeline-dspa.fraud.svc:8443"]> ∅)
        (<[sa_token_path := File "sha256~token "]>
         (<[sa_ca_cert := File "-----BEGIN CERTIFICATE-----"]> ∅)).

Definition world_without_token : world :=
  World (<["KUBEFLOW_ENDPOINT" := "https://pipelines.example.com"]> ∅) ∅.


(** The weight the balanced rule gives the class [c] of the labels [y]:
    n_samples / (n_classes * count[c]), in the arithmetic [ar]. *)
Definition balanced_weight (ar : Numpy.arithmetic) (y : list Qc) (c : Qc)
  : Qc :=
  Numpy.div ar (Qc_of_nat (length y))
    (Numpy.mul ar (Qc_of_nat (length (Numpy.unique y)))
       (Qc_of_nat (Sklearn.count c y))).

(** The matrices the scaler was fitted on during a run, in order. *)
Definition scaler_fits (h : list (event train_call)) : list matrix :=
  omap (λ e, match e with Extern (ScalerFit X) => Some X | _ => None end) h.

(** Columns 1, 2, 4, 5, 6 and column 7 of each row of a table. *)
Definition features_of (df : Pandas.DataFrame) : matrix :=
  (λ r, [nth 1 r 0%Qc; nth 2 r 0%Qc; nth 4 r 0%Qc; nth 5 r 0%Qc;
         nth 6 r 0%Qc]) <$> Pandas.values df.

Definition labels_of (df : Pandas.DataFrame) : matrix :=
  (λ r, [nth 7 r 0%Qc]) <$> Pandas.values df.










(** The label column and the feature columns of a table, as tables. *)
Definition label_frame (df : Pandas.DataFrame) : Pandas.DataFrame :=
  Pandas.MkDataFrame [nth 7 (Pandas.columns df) ""] (labels_of df).

Definition feature_frame (df : Pandas.DataFrame) : Pandas.DataFrame :=
  Pandas.MkDataFrame
    ((λ i, nth i (Pandas.columns df) "") <$> [1; 2; 4; 5; 6]%nat)
    (features_of df).

(** Sample tables with the eight columns of the fraud data. *)
Definition fraud_columns : list string :=
  ["distance_from_home"; "distance_from_last_transaction";
   "ratio_to_median_purchase_price"; "repeat_retailer"; "used_chip";
   "used_pin_number"; "online_order"; "fraud"].

Definition sample_train : Pandas.DataFrame :=
  Pandas.MkDataFrame fraud_columns
    ((λ r : list Z, Qc_of_Z <$> r) <$>
       [[57; 3; 2; 1; 1; 0; 0; 0]; [10; 1; 1; 1; 0; 0; 1; 0];
        [5; 8; 4; 1; 0; 0; 1; 1]; [2; 2; 1; 0; 1; 1; 0; 0]]%Z).

Definition sample_validate : Pandas.DataFrame :=
  Pandas.MkDataFrame fraud_columns
    ((λ r : list Z, Qc_of_Z <$> r) <$>
       [[44; 0; 6; 1; 0; 0; 1; 1]; [3; 1; 1; 1; 1; 0; 0; 0]]%Z).

Definition sample_files : gmap string Pandas.DataFrame :=
  <["train.csv" := sample_train]> (<["validate.csv" := sample_validate]> ∅).

Definition expected_pipeline : Kfp.pipeline_spec :=
  [ Kfp.Task get_data_component ∅ ∅ [];
    Kfp.Task train_model_component
      (<["train_data_input_path" := Kfp.Channel 0 "train_data_output_path"]>
       (<["validate_data_input_path" :=
            Kfp.Channel 0 "validate_data_output_path"]> ∅)) ∅ [];
    Kfp.Task upload_model_component
      (<["input_model_path" := Kfp.Channel 1 "model_output_path"]> ∅)
      (<["S3_KEY" := "models/fraud/1/model.onnx"]> ∅)
      [Kfp.SecretAsEnv "frauddetection-storage"
         (list_to_map ((λ k, (k, k)) <$> secret_keys))] ].


(** ** Vocabulary of the further properties *)

Definition train_csv_url : string :=
  "https://raw.githubusercontent.com/rh-aiservices-bu/fraud-detection/main/data/train.csv".

Definition validate_csv_url : string :=
  "https://raw.githubusercontent.com/rh-aiservices-bu/fraud-detection/main/data/validate.csv".

(** The downloads of a run of [get_data], in order: url and file name. *)
Definition downloads (tr : list (event fetch_call)) : list (string * string) :=
  omap (λ e, match e with
             | Extern (UrlRetrieve url filename) => Some (url, filename)
             | _ => None
             end) tr.

(** The runs submitted during a run of the submission routine. *)
Definition submissions (tr : list (event KfpClient.call))
  : list (KfpClient.Client * Kfp.pipeline_spec * string) :=
  omap (λ e, match e with
             | Extern (KfpClient.CreateRun c p n) => Some (c, p, n)
             | _ => None
             end) tr.

(** The characters of a string. *)
Fixpoint chars (s : string) : list ascii :=
  match s with
  | EmptyString => []
  | String c s' => c :: chars s'
  end.

(** A network that answers every download. *)
Definition reachable : string → result unit := λ _, Ok tt.

(** A table with the eight columns and no row, and one with seven columns. *)
Definition empty_table : Pandas.DataFrame :=
  Pandas.MkDataFrame fraud_columns [].

Definition narrow_table : Pandas.DataFrame :=
  Pandas.MkDataFrame
    ["distance_from_home"; "distance_from_last_transaction";
     "ratio_to_median_purchase_price"; "repeat_retailer"; "used_chip";
     "used_pin_number"; "online_order"]
    [Qc_of_Z <$> [57; 3; 2; 1; 1; 0; 0]%Z].

(** A service whose endpoint cannot be reached. *)
Definition unreachable_service : KfpClient.service :=
  KfpClient.Service
    (λ _, Raise (LibraryError "kfp" "connection refused"))
    (λ _ _ _, Raise (LibraryError "kfp" "connection refused")).

(** The sample training table with other values in the two columns the
    trainer does not select (0 and 3). *)
Definition sample_train_moved : Pandas.DataFrame :=
  Pandas.MkDataFrame fraud_columns
    ((λ r : list Z, Qc_of_Z <$> r) <$>
       [[1; 3; 2; 0; 1; 0; 0; 0]; [2; 1; 1; 0; 0; 0; 1; 0];
        [3; 8; 4; 0; 0; 0; 1; 1]; [4; 2; 1; 1; 1; 1; 0; 0]]%Z).

(** ** Vocabulary of the properties of the numeric code *)

(** A square root for the sample runs: the root to 52 binary places,
    rounded down. *)
Definition sqrt_52 (v : Qc) : Qc :=
  Q2Qc (inject_Z (Z.sqrt (Qfloor (v * inject_Z (2 ^ 104))))
        / inject_Z (2 ^ 52)).

(** Libraries whose calls all return, with exact arithmetic and [fsqrt]
    for the square root. *)
Definition ideal_libraries (fsqrt : Qc → Qc) : libraries :=
  Libraries Numpy.exact (Sklearn.exact_statistics fsqrt)
    (λ _, Ok tt) (λ _ _, Ok tt) (λ _ _, Ok tt) (λ _, Ok tt) (λ _ _, Ok tt).

(** The fits of the network during a run, in order. *)
Definition model_fits (h : list (event train_call))
  : list (Keras.Sequential * Keras.fit_arguments) :=
  omap (λ e, match e with
             | Extern (ModelFit m a) => Some (m, a)
             | _ => None
             end) h.

(** The parameters [p] are those of the five columns of [X]: for each
    column its mean, its variance and its scale, as the library computes
    them from that column and the number of rows. *)
Definition fitted_on (st : Sklearn.statistics) (X : matrix)
    (p : Sklearn.fitted) : Prop :=
  length (Sklearn.mean_ p) = 5%nat ∧ length (Sklearn.var_ p) = 5%nat ∧
  length (Sklearn.scale_ p) = 5%nat ∧
  ∀ j, (j < 5)%nat →
    let col := (λ r, nth j r 0%Qc) <$> X in
    Sklearn.mean_ p !! j = Some (Sklearn.col_mean st col) ∧
    Sklearn.var_ p !! j = Some (Sklearn.col_var st col) ∧
    Sklearn.scale_ p !! j =
      Some (Sklearn.col_scale st (length X) (Sklearn.col_mean st col)
              (Sklearn.col_var st col)).

(** The matrix [X] of five columns, standardized with the parameters [p]:
    each cell has the mean of its column subtracted and is divided by the
    scale of its column. *)
Definition standardized (ar : Numpy.arithmetic) (p : Sklearn.fitted)
    (X : matrix) : matrix :=
  (λ r, (λ j, Numpy.div ar
                (Numpy.sub ar (nth j r 0%Qc) (nth j (Sklearn.mean_ p) 0%Qc))
                (nth j (Sklearn.scale_ p) 0%Qc))
          <$> [0; 1; 2; 3; 4]%nat) <$> X.

(** The sum over the classes of weight times count, in the arithmetic
    [ar]; the weight of the class at position [i] is under the key [i]. *)
Definition weighted_count_sum (ar : Numpy.arithmetic) (cw : gmap nat Qc)
    (classes y : list Qc) : Qc :=
  foldr (Numpy.add ar) 0%Qc
    (imap (λ i c, Numpy.mul ar (default 0%Qc (cw !! i))
                    (Qc_of_nat (Sklearn.count c y))) classes).

(** The invariant of the balanced weights as the specification states it:
    the weighted sum of the counts is the number of samples. The weights
    are computed in the arithmetic [ar], the sum is taken in [sums]. *)
Definition balanced_invariant (ar sums : Numpy.arithmetic)
    (y_train : Pandas.DataFrame) : Prop :=
  ∀ cw, class_weights_of ar y_train = Ok cw →
    let y := Numpy.ravel (Pandas.values y_train) in
    weighted_count_sum sums cw (Numpy.unique y) y = Qc_of_nat (length y).

(** The unit roundoff of float64, [2^-53], and four times it. *)
Definition u64 : Qc := Q2Qc (1 # 9007199254740992).

Definition float64_tolerance : Qc := Q2Qc (1 # 2251799813685248).

(** [x] is [n] up to the relative error [tol]. *)
Definition approximately (tol x n : Qc) : Prop :=
  (n * (1 - tol) ≤ x ∧ x ≤ n * (1 + tol))%Qc.

(** A label column with 39 samples of class 0 and 11 of class 1. *)
Definition skewed_labels : Pandas.DataFrame :=
  Pandas.MkDataFrame ["fraud"]
    (replicate 39 [Qc_of_Z 0] ++ replicate 11 [Qc_of_Z 1]).

(** The event [e1] comes right before the event [e2] in the history [h]. *)
Definition adjacent_in {A} (e1 e2 : A) (h : list A) : Prop :=
  ∃ pre post, h = pre ++ e1 :: e2 :: post.

(** * Properties *)

Arguments Sklearn.transform_with : simpl never.
Arguments Sklearn.fit_params : simpl never.
Arguments class_weights_of : simpl never.
Arguments Numpy.round64 : simpl never.
Arguments Pandas.iloc_columns : simpl never.

Ltac run :=
  repeat (unfold mbind, mret, Prog_bind, Prog_ret, lift_result, raise,
            emit, print, environ_getitem, load_name; simpl).

(** ** Strings *)

Lemma append_nil (s : string) : "" +:+ s = s.
Proof. reflexivity. Qed.

Lemma append_cons (c : ascii) (s t : string) :
  String c s +:+ t = String c (s +:+ t).
Proof. reflexivity. Qed.

Lemma prefix_app (n h : string) :
  String.prefix n h = true ↔ ∃ post, h = n +:+ post.
Proof.
  revert h. induction n as [|c n IH]; intros h.
  - destruct h; simpl;
      (split; [intros _; eexists; by rewrite append_nil | done]).
  - destruct h as [|c' h]; simpl.
    { split; [done|]. intros [post H]. by rewrite append_cons in H. }
    destruct (Ascii.ascii_dec c c') as [->|Hne].
    + rewrite IH. split; intros [post H]; exists post;
        rewrite append_cons in *; by simplify_eq.
    + split; [done|]. intros [post H]. rewrite append_cons in H.
      by simplify_eq.
Qed.

Lemma str_in_nil (n : string) : str_in n "" = String.prefix n "".
Proof. simpl. apply orb_false_r. Qed.

Lemma str_in_cons (n : string) (c : ascii) (h : string) :
  str_in n (String c h) = String.prefix n (String c h) || str_in n h.
Proof. reflexivity. Qed.

Lemma str_in_substring (n h : string) :
  str_in n h = true ↔ ∃ pre post, h = pre +:+ n +:+ post.
Proof.
  induction h as [|c h IH].
  - rewrite str_in_nil, prefix_app. split.
    + intros [post ->]. by exists "", post.
    + intros [[|c pre] [post H]]; [by exists post | done].
  - rewrite str_in_cons, orb_true_iff, IH, prefix_app. split.
    + intros [[post ->] | (pre & post & ->)];
        [by exists "", post | by exists (String c pre), post].
    + intros [[|c' pre] [post H]]; [left; by exists post|].
      right. exists pre, post. rewrite append_cons in H. by simplify_eq.
Qed.

(** ** The pipeline definition *)

Lemma pipeline_compiles : Kfp.compile pipeline = Ok expected_pipeline.
Proof. by vm_compute. Qed.

Lemma expected_edges :
  Kfp.edges expected_pipeline =
  [(0, "validate_data_output_path", 1, "validate_data_input_path");
   (0, "train_data_output_path", 1, "train_data_input_path");
   (1, "model_output_path", 2, "input_model_path")].
Proof. by vm_compute. Qed.

Lemma secret_keys_NoDup : NoDup ((λ k : string, (k, k)) <$> secret_keys).*1.
Proof. apply (bool_decide_unpack _). by vm_compute. Qed.

(** C8. The pipeline gives the uploader task the environment variable
    S3_KEY with the value models/fraud/1/model.onnx and nothing else, and
    one secret mapping, from the secret frauddetection-storage, whose
    entries are exactly the five credential variables, each mapped to the
    variable of its own name; the other two tasks get no secret. *)
Theorem pipeline_uploader_environment :
  ∃ fetcher trainer uploader key_to_env,
    Kfp.compile pipeline = Ok [fetcher; trainer; uploader] ∧
    Kfp.component_ref uploader = upload_model_component ∧
    Kfp.env uploader = {["S3_KEY" := "models/fraud/1/model.onnx"]} ∧
    Kfp.secrets uploader =
      [Kfp.SecretAsEnv "frauddetection-storage" key_to_env] ∧
    (∀ k v, key_to_env !! k = Some v ↔ k ∈ secret_keys ∧ v = k) ∧
    Kfp.secrets fetcher = [] ∧ Kfp.secrets trainer = [].
Proof.
  do 4 eexists. split; [apply pipeline_compiles|].
  do 3 (split; [done|]). split; [|done].
  intros k v. rewrite <- elem_of_list_to_map by apply secret_keys_NoDup.
  rewrite list_elem_of_fmap. split.
  - by intros (k' & [= -> ->] & Hin).
  - intros [Hin ->]. by exists k.
Qed.

(** C9. The pipeline has three tasks, fetcher, trainer and uploader in
    this order; its artifact dependencies are exactly three: the two
    outputs of the fetcher feed the two inputs of the trainer, and the one
    output of the trainer feeds the one input of the uploader. *)
Theorem pipeline_is_linear_chain :
  ∃ p,
    Kfp.compile pipeline = Ok p ∧
    Kfp.component_ref <$> p =
      [get_data_component; train_model_component; upload_model_component] ∧
    Kfp.inputs get_data_component = [] ∧
    Kfp.outputs get_data_component =
      ["train_data_output_path"; "validate_data_output_path"] ∧
    Kfp.inputs train_model_component =
      ["train_data_input_path"; "validate_data_input_path"] ∧
    Kfp.outputs train_model_component = ["model_output_path"] ∧
    Kfp.inputs upload_model_component = ["input_model_path"] ∧
    Kfp.outputs upload_model_component = [] ∧
    ∀ e, e ∈ Kfp.edges p ↔
         e ∈ [(0, "train_data_output_path", 1, "train_data_input_path");
              (0, "validate_data_output_path", 1, "validate_data_input_path");
              (1, "model_output_path", 2, "input_model_path")].
Proof.
  exists expected_pipeline. split; [apply pipeline_compiles|].
  do 7 (split; [done|]).
  intros e. rewrite expected_edges, !elem_of_cons. tauto.
Qed.

(** ** The submission routine *)

(** C10. Without KUBEFLOW_ENDPOINT the routine raises the key error of
    that name at its first statement: nothing has been printed, no file
    read, no client made and no request sent. *)
Theorem main_without_endpoint (kfp : KfpClient.service) (w : world)
    (before : list (event KfpClient.call)) :
  environ w !! "KUBEFLOW_ENDPOINT" = None →
  main kfp w before = (Raise (KeyError "KUBEFLOW_ENDPOINT"), before).
Proof. intros H. unfold main. run. by rewrite H. Qed.

Lemma main_without_endpoint_witness :
  environ (World ∅ ∅) !! "KUBEFLOW_ENDPOINT" = None ∧
  main accepting_service (World ∅ ∅) [] =
    (Raise (KeyError "KUBEFLOW_ENDPOINT"), []).
Proof.
  split; [reflexivity|].
  apply (main_without_endpoint accepting_service (World ∅ ∅) []).
  reflexivity.
Defined.

Lemma main_without_token_no_call (kfp : KfpClient.service) (w : world)
    (c : KfpClient.call) :
  isfile w sa_token_path = false → Extern c ∉ (main kfp w []).2.
Proof.
  intros Htok. unfold main, read_bearer_token, choose_ssl_ca_cert. run.
  destruct (environ w !! "KUBEFLOW_ENDPOINT") as [endpoint|]; simpl;
    [|apply not_elem_of_nil].
  rewrite Htok. simpl.
  destruct (isfile w sa_ca_cert && str_in "svc" endpoint); simpl;
    rewrite !elem_of_cons, elem_of_nil; intuition congruence.
Qed.

(** C7. When the token file is not there, the routine ends in an
    exception (the name bearer_token was never bound; or the key error, if
    the endpoint variable is missing too) and has made no external call:
    no client, no run submitted. *)
Theorem main_without_token (kfp : KfpClient.service) (w : world) :
  isfile w sa_token_path = false →
  (main kfp w []).1 =
    Raise (match environ w !! "KUBEFLOW_ENDPOINT" with
           | Some _ => NameError "bearer_token"
           | None => KeyError "KUBEFLOW_ENDPOINT"
           end) ∧
  ∀ c, Extern c ∉ (main kfp w []).2.
Proof.
  intros Htok. unfold main, read_bearer_token, choose_ssl_ca_cert. run.
  destruct (environ w !! "KUBEFLOW_ENDPOINT") as [endpoint|]; simpl.
  - rewrite Htok. simpl.
    destruct (isfile w sa_ca_cert && str_in "svc" endpoint); simpl;
      (split; [done|]); intros c; rewrite !elem_of_cons, elem_of_nil;
      intuition congruence.
  - split; [done|]. intros c. apply not_elem_of_nil.
Qed.

Lemma main_without_token_witness :
  isfile world_without_token sa_token_path = false ∧
  (main accepting_service world_without_token []).1 =
    Raise (NameError "bearer_token").
Proof.
  split; [reflexivity|].
  apply (main_without_token accepting_service world_without_token).
  reflexivity.
Defined.

(** C6. With the endpoint variable set, the CA certificate the routine
    chooses (lines 189-194) is the service-account CA file if and only if
    that file is there and the endpoint contains the substring svc; in every
    other case it is None, whatever files exist. Every client the routine
    makes is made for the endpoint with exactly this choice; and with the
    token file in place it makes exactly one, with the stripped token. *)
Theorem ca_certificate_rule (kfp : KfpClient.service) (w : world)
    (endpoint : string) :
  environ w !! "KUBEFLOW_ENDPOINT" = Some endpoint →
  ∃ ca,
    (ca = Some sa_ca_cert ↔
       isfile w sa_ca_cert = true ∧
       ∃ pre post, endpoint = pre +:+ "svc" +:+ post) ∧
    (ca = None ↔
       ¬ (isfile w sa_ca_cert = true ∧
          ∃ pre post, endpoint = pre +:+ "svc" +:+ post)) ∧
    (∀ before, (choose_ssl_ca_cert w endpoint before).1 = Ok ca) ∧
    (∀ c, Extern (KfpClient.NewClient c) ∈ (main kfp w []).2 →
          KfpClient.host c = endpoint ∧ KfpClient.ssl_ca_cert c = ca) ∧
    (∀ token, fs w !! sa_token_path = Some (File token) →
       ∀ c, Extern (KfpClient.NewClient c) ∈ (main kfp w []).2 ↔
            c = KfpClient.MkClient endpoint (rstrip token) ca).
Proof.
  intros Hep.
  exists (if isfile w sa_ca_cert && str_in "svc" endpoint
          then Some sa_ca_cert else None).
  assert (Hcond : isfile w sa_ca_cert && str_in "svc" endpoint = true ↔
                  isfile w sa_ca_cert = true ∧
                  ∃ pre post, endpoint = pre +:+ "svc" +:+ post).
  { by rewrite andb_true_iff, str_in_substring. }
  assert (Hclient : ∀ token, fs w !! sa_token_path = Some (File token) →
            ∀ c, Extern (KfpClient.NewClient c) ∈ (main kfp w []).2 ↔
                 c = KfpClient.MkClient endpoint (rstrip token)
                       (if isfile w sa_ca_cert && str_in "svc" endpoint
                        then Some sa_ca_cert else None)).
  { intros token Htok c.
    unfold main, read_bearer_token, choose_ssl_ca_cert, kfp_Client,
      create_run_from_pipeline_func, open_read, isfile. run.
    rewrite Hep; simpl. rewrite Htok; simpl.
    fold (isfile w sa_ca_cert). rewrite pipeline_compiles.
    destruct (isfile w sa_ca_cert && str_in "svc" endpoint); simpl;
      destruct (KfpClient.connect kfp _); simpl;
      try destruct (KfpClient.create_run kfp _ _ _); simpl;
      rewrite !elem_of_cons, elem_of_nil; intuition congruence. }
  split; [|split; [|split; [|split]]].
  - rewrite <- Hcond. by destruct (_ && _).
  - rewrite <- Hcond. destruct (_ && _); [|done].
    split; [done|]. by intros [].
  - intros before. unfold choose_ssl_ca_cert. by destruct (_ && _).
  - intros c Hc.
    destruct (fs w !! sa_token_path) as [[token|]|] eqn:Htok.
    + apply (Hclient token eq_refl) in Hc. by subst c.
    + exfalso. eapply (main_without_token_no_call kfp w); [|exact Hc].
      unfold isfile. by rewrite Htok.
    + exfalso. eapply (main_without_token_no_call kfp w); [|exact Hc].
      unfold isfile. by rewrite Htok.
  - exact Hclient.
Qed.

Lemma ca_certificate_rule_witness :
  environ world_in_cluster !! "KUBEFLOW_ENDPOINT"
    = Some "https://ds-pipeline-dspa.fraud.svc:8443" ∧
  ∃ ca,
    (∀ before,
       (choose_ssl_ca_cert world_in_cluster
          "https://ds-pipeline-dspa.fraud.svc:8443" before).1 = Ok ca) ∧
    (∀ c, Extern (KfpClient.NewClient c)
            ∈ (main accepting_service world_in_cluster []).2 →
          KfpClient.ssl_ca_cert c = ca).
Proof.
  split; [reflexivity|].
  destruct (ca_certificate_rule accepting_service world_in_cluster
              "https://ds-pipeline-dspa.fraud.svc:8443" eq_refl)
    as (ca & _ & _ & Hchoice & Hclient & _).
  exists ca. split; [assumption|].
  intros c Hc. exact (proj2 (Hclient c Hc)).
Defined.

(** ** The upload step *)

Lemma upload_model_run (lib : Boto3.library) (w : world) (path : string) :
  upload_model lib w path [] =
  match
    Boto3.check_session lib w (environ w !! "AWS_ACCESS_KEY_ID")
      (environ w !! "AWS_SECRET_ACCESS_KEY"),
    Boto3.check_resource lib w (session_of w) "s3" (Boto3.MkConfig "s3v4")
      (environ w !! "AWS_S3_ENDPOINT") (environ w !! "AWS_DEFAULT_REGION"),
    Boto3.check_bucket lib w (resource_of w) (environ w !! "AWS_S3_BUCKET")
  with
  | Raise e, _, _ | Ok _, Raise e, _ | Ok _, Ok _, Raise e => (Raise e, [])
  | Ok _, Ok _, Ok _ =>
      let line := Printed ("Uploading " +:+ str_of_optional (environ w !! "S3_KEY")) in
      match
        Boto3.transfer lib w (bucket_of w) path (environ w !! "S3_KEY")
      with
      | Boto3.Rejected e => (Raise e, [line])
      | Boto3.Sent response =>
          (response,
           [line;
            Extern (Boto3.PutObject (bucket_of w) path
                      (environ w !! "S3_KEY"))])
      end
  end.
Proof.
  unfold upload_model, Boto3.new_session, Boto3.new_resource,
    Boto3.new_bucket, Boto3.upload_file, environ_get, bucket_of,
    resource_of, session_of.
  run.
  destruct (Boto3.check_session lib _ _ _) as [[]|]; simpl; [|done].
  destruct (Boto3.check_resource lib _ _ _ _ _ _) as [[]|]; simpl; [|done].
  destruct (Boto3.check_bucket lib _ _ _) as [[]|]; simpl; [|done].
  by destruct (Boto3.transfer lib _ _ _ _) as [|[[]|]].
Qed.

(** C1, as the code has it. The upload step checks nothing itself:
    it reads the six variables with a lookup that gives None for an absent
    one and hands the values to the storage client. It fails before any
    request is sent exactly when the client library refuses those values;
    otherwise it sends the one upload request, for the bucket, the file and
    the key it read. *)
Theorem upload_fails_early_iff_library_refuses (lib : Boto3.library)
    (w : world) (path : string) :
  (fails_before_network (upload_model lib w path []) ↔
   library_refuses lib w path) ∧
  (∀ c, Extern c ∈ (upload_model lib w path []).2 ↔
        c = Boto3.PutObject (bucket_of w) path (environ w !! "S3_KEY") ∧
        ¬ library_refuses lib w path).
Proof.
  rewrite upload_model_run.
  unfold fails_before_network, library_refuses.
  destruct (Boto3.check_session lib _ _ _) as [[]|e1]; simpl;
    [destruct (Boto3.check_resource lib _ _ _ _ _ _) as [[]|e2]; simpl;
     [destruct (Boto3.check_bucket lib _ _ _) as [[]|e3]; simpl;
      [destruct (Boto3.transfer lib _ _ _ _) as [e4|r]; simpl|]|]|].
  2: { (* the request is sent *)
    assert (Hnot : ¬ ((∃ e, Ok () = Raise e) ∨ (∃ e, Ok () = Raise e) ∨
                      (∃ e, Ok () = Raise e) ∨
                      (∃ e, Boto3.Sent r = Boto3.Rejected e))).
    { intros [[? ?]|[[? ?]|[[? ?]|[? ?]]]]; discriminate. }
    split; [split; [|done]|].
    - intros [_ Hno]. exfalso. eapply Hno.
      apply elem_of_cons. right. apply elem_of_cons. by left.
    - intros c. rewrite !elem_of_cons, elem_of_nil. split.
      + intros [?|[?|[]]]; [discriminate|]. by simplify_eq.
      + intros [-> _]. by auto. }
  (* the library refuses: nothing is sent *)
  all: match goal with
       | |- (_ ↔ ?R) ∧ _ => assert (Hyes : R) by eauto 10
       end.
  all: split; [split; [done|intros _]|].
  all: try (split; [by eexists|]).
  all: intros c; rewrite ?elem_of_cons, ?elem_of_nil;
       first [ tauto
             | intros [?|[]]; discriminate
             | split; [intros [?|[]]; discriminate | tauto] ].
Qed.

(** C1, as stated, fails: with boto3 as documented and every variable set
    but AWS_S3_ENDPOINT, the step does not fail; it sends the upload to the
    library's default endpoint. *)
Lemma upload_without_endpoint_reaches_storage :
  credential_missing world_without_endpoint_variable ∧
  ¬ fails_before_network
      (upload_model Boto3.documented world_without_endpoint_variable
         "/tmp/model.onnx" []).
Proof.
  split.
  - exists "AWS_S3_ENDPOINT". split; [|reflexivity].
    unfold credential_variables. rewrite !elem_of_cons. auto.
  - intros [[e He] _]. vm_compute in He. discriminate.
Qed.

(** ** The trainer: tables and class weights *)

Lemma iloc_columns_in_range (df : Pandas.DataFrame) (idxs : list nat) :
  Forall (λ i, i < length (Pandas.columns df))%nat idxs →
  Pandas.iloc_columns df idxs =
    Ok (Pandas.MkDataFrame (Pandas.take "" idxs (Pandas.columns df))
          (Pandas.take 0%Qc idxs <$> Pandas.values df)).
Proof. intros H. unfold Pandas.iloc_columns. by rewrite decide_True. Qed.

Lemma elem_of_insert_unique (z x : Qc) (l : list Qc) :
  z ∈ Numpy.insert_unique x l ↔ z = x ∨ z ∈ l.
Proof.
  induction l as [|y l IH]; simpl.
  - rewrite list_elem_of_singleton, elem_of_nil. tauto.
  - destruct (x ?= y)%Qc eqn:Hc.
    + apply Qceq_alt in Hc as ->. rewrite elem_of_cons. tauto.
    + rewrite !elem_of_cons. tauto.
    + rewrite !elem_of_cons, IH. tauto.
Qed.

Lemma elem_of_unique (z : Qc) (l : list Qc) : z ∈ Numpy.unique l ↔ z ∈ l.
Proof.
  induction l as [|x l IH]; simpl; [done|].
  by rewrite elem_of_insert_unique, IH, elem_of_cons.
Qed.

Lemma unique_nil_inv (l : list Qc) : Numpy.unique l = [] → l = [].
Proof.
  destruct l as [|x l]; [done|]. intros H.
  assert (Hx : x ∈ Numpy.unique (x :: l)) by (apply elem_of_unique; left).
  rewrite H in Hx. by apply elem_of_nil in Hx.
Qed.

Lemma insert_unique_sorted (x : Qc) (l : list Qc) :
  StronglySorted Qclt l → StronglySorted Qclt (Numpy.insert_unique x l).
Proof.
  induction 1 as [|y l Hl IH Hy]; simpl.
  - repeat constructor.
  - destruct (x ?= y)%Qc eqn:Hc.
    + by constructor.
    + constructor; [by constructor|].
      constructor; [exact Hc|].
      eapply Forall_impl; [exact Hy|]. intros z Hz.
      by apply Qclt_trans with y.
    + constructor; [exact IH|].
      apply Forall_forall. intros z [->|Hz]%elem_of_insert_unique.
      * by apply Qcgt_alt in Hc.
      * by eapply Forall_forall in Hy.
Qed.

Lemma unique_sorted (l : list Qc) : StronglySorted Qclt (Numpy.unique l).
Proof.
  induction l as [|x l IH]; simpl; [constructor|].
  by apply insert_unique_sorted.
Qed.

Lemma count_count_occ (c : Qc) (y : list Qc) :
  Sklearn.count c y = count_occ Qc_eq_dec y c.
Proof.
  unfold Sklearn.count. induction y as [|v y IH]; [done|].
  rewrite filter_cons. simpl.
  destruct (Qc_eq_dec v c) as [->|Hne].
  - rewrite decide_True by done. simpl. by rewrite IH.
  - by rewrite decide_False.
Qed.

Lemma count_pos (c : Qc) (y : list Qc) : c ∈ y → (0 < Sklearn.count c y)%nat.
Proof.
  intros Hin. unfold Sklearn.count.
  destruct (filter (λ v, v = c) y) as [|? ?] eqn:Hf; simpl; [|lia].
  by destruct (filter_nil_not_elem_of _ _ c Hf eq_refl).
Qed.

Lemma Qc_of_nat_neq_0 (n : nat) : (0 < n)%nat → Qc_of_nat n ≠ 0%Qc.
Proof.
  intros Hn H. unfold Qc_of_nat, Qc_of_Z in H.
  apply (f_equal this) in H. simpl in H.
  injection H. lia.
Qed.

Lemma Qc_of_nat_S (n : nat) : Qc_of_nat (S n) = (1 + Qc_of_nat n)%Qc.
Proof.
  unfold Qc_of_nat. rewrite Nat2Z.inj_succ, <- Z.add_1_l, Z2Qc_inj_add.
  by rewrite Z2Qc_inj_1.
Qed.

Lemma Qc_of_nat_lt (a b : nat) :
  (a < b)%nat → (Qc_of_nat a < Qc_of_nat b)%Qc.
Proof.
  intros H. unfold Qc_of_nat. apply (proj1 (Z2Qc_inj_lt _ _)). lia.
Qed.

Lemma Qc_of_nat_pos (n : nat) : (0 < n)%nat → (0 < Qc_of_nat n)%Qc.
Proof.
  intros H. rewrite <- Z2Qc_inj_0. change (Qc_of_Z 0) with (Qc_of_nat 0).
  by apply Qc_of_nat_lt.
Qed.

Lemma compute_class_weight_unique (ar : Numpy.arithmetic) (y : list Qc) :
  Sklearn.compute_class_weight_balanced ar (Numpy.unique y) y =
    Ok (balanced_weight ar y <$> Numpy.unique y).
Proof.
  unfold Sklearn.compute_class_weight_balanced.
  rewrite decide_True
    by (apply Forall_forall; intros v Hv; by apply elem_of_unique).
  rewrite decide_True by (by apply Forall_forall).
  f_equal. apply list_fmap_ext. intros i c Hc.
  assert (Hin : c ∈ Numpy.unique y) by (by eapply list_elem_of_lookup_2).
  destruct (list_find_elem_of (λ v, v = c) _ c Hin eq_refl) as [[j x] Hj].
  unfold Sklearn.index_of. rewrite Hj. simpl.
  apply list_find_Some in Hj as (Hj & -> & _).
  by rewrite list_lookup_fmap, Hj.
Qed.

Lemma lookup_dict_seq (f : nat → Qc) (a n i : nat) :
  (list_to_map ((λ i, (i, f i)) <$> seq a n) : gmap nat Qc) !! i =
    if decide (a ≤ i < a + n)%nat then Some (f i) else None.
Proof.
  revert a. induction n as [|n IH]; intros a; simpl.
  - rewrite lookup_empty. by rewrite decide_False by lia.
  - rewrite lookup_insert. destruct (decide (a = i)) as [->|Hne].
    + by rewrite decide_True by lia.
    + rewrite IH. repeat case_decide; try done; lia.
Qed.

Lemma lookup_dict_of_array (a : list Qc) (i : nat) :
  dict_of_array a !! i = a !! i.
Proof.
  unfold dict_of_array. rewrite lookup_dict_seq.
  destruct (nth_lookup_or_length a i 0%Qc) as [Hi|Hi].
  - rewrite decide_True; [done|]. apply lookup_lt_Some in Hi. lia.
  - rewrite decide_False by lia. symmetry. by apply lookup_ge_None.
Qed.

Lemma sum_constant (v : Qc) (l : list Qc) :
  Forall (λ x, x = v) l → Sklearn.sum l = (Qc_of_nat (length l) * v)%Qc.
Proof.
  induction 1 as [|x l -> _ IH].
  - change (0 = Qc_of_Z 0 * v)%Qc. rewrite Z2Qc_inj_0. ring.
  - change (v + Sklearn.sum l = Qc_of_nat (S (length l)) * v)%Qc.
    rewrite IH, Qc_of_nat_S. ring.
Qed.

Lemma balanced_weight_times_count (y : list Qc) (c : Qc) :
  c ∈ y →
  (balanced_weight Numpy.exact y c * Qc_of_nat (Sklearn.count c y))%Qc =
  (Qc_of_nat (length y) / Qc_of_nat (length (Numpy.unique y)))%Qc.
Proof.
  intros Hc. unfold balanced_weight. simpl.
  assert (Qc_of_nat (Sklearn.count c y) ≠ 0%Qc)
    by (by apply Qc_of_nat_neq_0, count_pos).
  assert (Qc_of_nat (length (Numpy.unique y)) ≠ 0%Qc).
  { apply Qc_of_nat_neq_0. apply elem_of_unique in Hc.
    destruct (Numpy.unique y); [by apply elem_of_nil in Hc|simpl; lia]. }
  by field.
Qed.

Lemma class_weights_of_Ok (ar : Numpy.arithmetic)
    (y_train : Pandas.DataFrame) :
  class_weights_of ar y_train =
    Ok (dict_of_array
          (balanced_weight ar (Numpy.ravel (Pandas.values y_train))
             <$> Numpy.unique (Numpy.ravel (Pandas.values y_train)))).
Proof.
  unfold class_weights_of. by rewrite compute_class_weight_unique.
Qed.

Lemma ravel_labels (df : Pandas.DataFrame) :
  Numpy.ravel (Pandas.values (label_frame df)) =
    (λ r, nth 7 r 0%Qc) <$> Pandas.values df.
Proof.
  unfold Numpy.ravel, label_frame, labels_of. simpl.
  induction (Pandas.values df) as [|r X IH]; [done|].
  rewrite !fmap_cons. simpl. by rewrite IH.
Qed.

Lemma exact_weighted_count_sum (y : list Qc) :
  weighted_count_sum Numpy.exact
    (dict_of_array (balanced_weight Numpy.exact y <$> Numpy.unique y))
    (Numpy.unique y) y
  = Qc_of_nat (length y).
Proof.
  unfold weighted_count_sum.
  change (foldr (Numpy.add Numpy.exact) 0%Qc) with Sklearn.sum.
  rewrite (sum_constant
             (Qc_of_nat (length y) / Qc_of_nat (length (Numpy.unique y)))%Qc).
  - rewrite length_imap. destruct (Numpy.unique y) as [|c0 cs] eqn:Hcl.
    + apply unique_nil_inv in Hcl. rewrite Hcl. simpl.
      change (Qc_of_nat 0) with (Qc_of_Z 0). rewrite Z2Qc_inj_0. ring.
    + field. apply Qc_of_nat_neq_0. simpl. lia.
  - apply Forall_lookup. intros i x Hx.
    apply list_lookup_imap_Some in Hx as (c & Hc & ->).
    rewrite lookup_dict_of_array, list_lookup_fmap, Hc. simpl.
    apply balanced_weight_times_count, elem_of_unique.
    by eapply list_elem_of_lookup_2.
Qed.

(** ** The trainer: runs of [train_model] *)

Lemma read_csv_Ok (files : gmap string Pandas.DataFrame) (path : string)
    (df : Pandas.DataFrame) :
  Pandas.read_csv files path = Ok df ↔ files !! path = Some df.
Proof.
  unfold Pandas.read_csv. destruct (files !! path); split; congruence.
Qed.

Lemma iloc_labels (df : Pandas.DataFrame) :
  (8 ≤ length (Pandas.columns df))%nat →
  Pandas.iloc_columns df label_indexes =
    Ok (label_frame df).
Proof.
  intros H. apply iloc_columns_in_range.
  unfold label_indexes. repeat constructor; lia.
Qed.

Lemma iloc_features (df : Pandas.DataFrame) :
  (8 ≤ length (Pandas.columns df))%nat →
  Pandas.iloc_columns df feature_indexes =
    Ok (feature_frame df).
Proof.
  intros H. apply iloc_columns_in_range.
  unfold feature_indexes. repeat constructor; lia.
Qed.

Lemma iloc_labels_narrow (df : Pandas.DataFrame) :
  ¬ (8 ≤ length (Pandas.columns df))%nat →
  Pandas.iloc_columns df label_indexes =
    Raise (IndexError "positional indexers are out-of-bounds").
Proof.
  intros H. unfold Pandas.iloc_columns, label_indexes.
  rewrite decide_False; [done|].
  intros [Hlt _]%Forall_cons. lia.
Qed.

Lemma transform_with_Ok (ar : Numpy.arithmetic) (p : Sklearn.fitted)
    (X Y : matrix) :
  Sklearn.transform_with ar (Some p) X = Ok Y →
  Y = Sklearn.transform_row ar p <$> X.
Proof.
  unfold Sklearn.transform_with. destruct X; [done|].
  case_decide; [|done]. by intros [= <-].
Qed.

Lemma transform_with_nonempty (ar : Numpy.arithmetic) (p : Sklearn.fitted)
    (X : matrix) :
  X ≠ [] → Sklearn.n_features X = length (Sklearn.mean_ p) →
  Sklearn.transform_with ar (Some p) X =
    Ok (Sklearn.transform_row ar p <$> X).
Proof.
  intros HX Hn. unfold Sklearn.transform_with. destruct X; [done|].
  by rewrite decide_True.
Qed.

Lemma features_of_nonempty (df : Pandas.DataFrame) :
  Pandas.values df ≠ [] →
  features_of df ≠ [] ∧ Sklearn.n_features (features_of df) = 5%nat.
Proof. unfold features_of. by destruct (Pandas.values df). Qed.

Lemma features_of_nil (df : Pandas.DataFrame) :
  Pandas.values df = [] → features_of df = [].
Proof. unfold features_of. by intros ->. Qed.

Lemma fit_params_nonempty (st : Sklearn.statistics) (X : matrix) :
  X ≠ [] →
  ∃ p, Sklearn.fit_params st X = Ok p ∧
       length (Sklearn.mean_ p) = Sklearn.n_features X.
Proof.
  intros HX. unfold Sklearn.fit_params. destruct X as [|r X]; [done|].
  eexists. split; [done|]. simpl. by rewrite !length_fmap, length_seq.
Qed.

Lemma fit_params_nil (st : Sklearn.statistics) :
  Sklearn.fit_params st [] = Raise (ValueError "Found array with 0 sample(s)").
Proof. reflexivity. Qed.

(** The parameters of a fit on the feature matrix of a table. *)
Lemma fit_params_features (st : Sklearn.statistics) (df : Pandas.DataFrame)
    (p : Sklearn.fitted) :
  Sklearn.fit_params st (features_of df) = Ok p →
  Pandas.values df ≠ [] ∧ fitted_on st (features_of df) p.
Proof.
  unfold Sklearn.fit_params.
  destruct (features_of df) as [|r X] eqn:HX; [done|].
  assert (Hr : length r = 5%nat).
  { unfold features_of in HX. destruct (Pandas.values df); [done|].
    by injection HX as <- _. }
  assert (Hne : Pandas.values df ≠ []).
  { intros Hnil. by rewrite (features_of_nil df Hnil) in HX. }
  intros [= <-]. split; [done|]. simpl. rewrite Hr.
  repeat split; try done.
  all: destruct j as [|[|[|[|[|j]]]]]; try lia; reflexivity.
Qed.

Lemma transform_row_standardized (ar : Numpy.arithmetic)
    (p : Sklearn.fitted) (df : Pandas.DataFrame) :
  length (Sklearn.mean_ p) = 5%nat → length (Sklearn.scale_ p) = 5%nat →
  Sklearn.transform_row ar p <$> features_of df =
    standardized ar p (features_of df).
Proof.
  intros Hm Hs. unfold standardized, features_of.
  rewrite <- !list_fmap_compose. apply list_fmap_ext. intros i r _. simpl.
  unfold Sklearn.transform_row.
  destruct (Sklearn.mean_ p) as [|m0 [|m1 [|m2 [|m3 [|m4 [|]]]]]];
    try discriminate Hm.
  destruct (Sklearn.scale_ p) as [|s0 [|s1 [|s2 [|s3 [|s4 [|]]]]]];
    try discriminate Hs.
  reflexivity.
Qed.

Lemma train_model_run (lib : libraries) (files : gmap string Pandas.DataFrame)
    (tp vp mp : string) :
  train_model lib files tp vp mp fresh =
  let out_of_bounds := IndexError "positional indexers are out-of-bounds" in
  let h1 := [Extern (ReadCsv tp)] in
  match files !! tp with
  | None => (Raise (FileNotFoundError tp), TrainState None h1)
  | Some train =>
  if decide (8 ≤ length (Pandas.columns train))%nat then
  let h2 := h1 ++ [Extern (ReadCsv vp)] in
  match files !! vp with
  | None => (Raise (FileNotFoundError vp), TrainState None h2)
  | Some val =>
  if decide (8 ≤ length (Pandas.columns val))%nat then
  let h3 := h2 ++ [Extern (ScalerFit (features_of train))] in
  match Sklearn.fit_params (stats lib) (features_of train) with
  | Raise e => (Raise e, TrainState None h3)
  | Ok p =>
  let h4 := h3 ++ [Extern (ScalerTransform (features_of train))] in
  match Sklearn.transform_with (arith lib) (Some p) (features_of train) with
  | Raise e => (Raise e, TrainState (Some p) h4)
  | Ok X_train_scaled =>
  let h5 := h4 ++ [Extern (Mkdir "artifact")] in
  match mkdir lib "artifact" with
  | Raise e => (Raise e, TrainState (Some p) h5)
  | Ok _ =>
  let h6 := h5 ++ [Extern (PickleDump "artifact/scaler.pkl" (Some p))] in
  match pickle_dump lib "artifact/scaler.pkl" (Some p) with
  | Raise e => (Raise e, TrainState (Some p) h6)
  | Ok _ =>
  match class_weights_of (arith lib) (label_frame train) with
  | Raise e => (Raise e, TrainState (Some p) h6)
  | Ok class_weights =>
  let h7 := h6 ++ [Extern (ModelSummary build_model);
                   Extern (ScalerTransform (features_of val))] in
  match Sklearn.transform_with (arith lib) (Some p) (features_of val) with
  | Raise e => (Raise e, TrainState (Some p) h7)
  | Ok X_val_scaled =>
  let a := Keras.FitArguments X_train_scaled (label_frame train) 2
             (X_val_scaled, label_frame val) true class_weights in
  let h8 := h7 ++ [Extern (ModelFit build_model a)] in
  match model_fit lib build_model a with
  | Raise e => (Raise e, TrainState (Some p) h8)
  | Ok _ =>
  let h9 := h8 ++ [Extern (FromKeras build_model)] in
  match from_keras lib build_model with
  | Raise e => (Raise e, TrainState (Some p) h9)
  | Ok _ =>
  let h10 := h9 ++ [Printed mp; Extern (OnnxSave build_model mp)] in
  match onnx_save lib build_model mp with
  | Raise e => (Raise e, TrainState (Some p) h10)
  | Ok _ => (Ok tt, TrainState (Some p) h10)
  end end end end end end end end end
  else (Raise out_of_bounds, TrainState None h2)
  end
  else (Raise out_of_bounds, TrainState None h1)
  end.
Proof.
  unfold train_model, load_dataset, scaler_fit_transform, scaler_fit,
    scaler_transform, make_directory, pickle_dump_scaler, fit_model,
    convert_model, save_model, record, say, new_scaler,
    get_scaler, set_scaler, fresh, Pandas.read_csv.
  run.
  destruct (files !! tp) as [train|]; simpl; [|done].
  case_decide as Hct;
    [rewrite iloc_labels, iloc_features by done
    |by rewrite iloc_labels_narrow].
  simpl.
  destruct (files !! vp) as [val|]; simpl; [|done].
  case_decide as Hcv;
    [rewrite iloc_labels, iloc_features by done
    |by rewrite iloc_labels_narrow].
  simpl.
  destruct (Sklearn.fit_params _ _); simpl; [|done].
  destruct (Sklearn.transform_with _ _ (features_of train)); simpl; [|done].
  destruct (mkdir lib _) as [[]|]; simpl; [|done].
  destruct (pickle_dump lib _ _) as [[]|]; simpl; [|done].
  destruct (class_weights_of _ _); simpl; [|done].
  destruct (Sklearn.transform_with _ _ (features_of val)); simpl; [|done].
  destruct (model_fit lib _ _) as [[]|]; simpl; [|done].
  destruct (from_keras lib _) as [[]|]; simpl; [|done].
  by destruct (onnx_save lib _ _) as [[]|].
Qed.

(** The cases of a run, each with what the run found on its way. *)
Ltac train_cases :=
  rewrite train_model_run; cbv zeta;
  match goal with
  | |- context [train_model_run] => idtac
  | |- context [match ?files !! ?tp with _ => _ end] =>
      destruct (files !! tp) as [train|] eqn:Ht; simpl;
      [case_decide as Hct; simpl;
       [match goal with
        | |- context [match ?files' !! ?vp with _ => _ end] =>
            destruct (files' !! vp) as [val|] eqn:Hv; simpl;
            [case_decide as Hcv; simpl;
             [destruct (Sklearn.fit_params _ _) as [p|] eqn:Hp; simpl;
              [destruct (Sklearn.transform_with _ _ (features_of train))
                 as [Xt|] eqn:HT; simpl;
               [destruct (mkdir _ _) as [[]|] eqn:Hmk; simpl;
                [destruct (pickle_dump _ _ _) as [[]|] eqn:Hpk; simpl;
                 [destruct (class_weights_of _ _) as [cw|] eqn:Hcw; simpl;
                  [destruct (Sklearn.transform_with _ _ (features_of val))
                     as [Xv|] eqn:HV; simpl;
                   [destruct (model_fit _ _ _) as [[]|] eqn:Hmf; simpl;
                    [destruct (from_keras _ _) as [[]|] eqn:Hfk; simpl;
                     [destruct (onnx_save _ _ _) as [[]|] eqn:Hsv; simpl
                     |]|]|]|]|]|]|]|]|]|]
        end|]|]
  end.

Ltac not_in_history H :=
  repeat (apply elem_of_cons in H as [H|H]; [discriminate H|]);
  by apply elem_of_nil in H.

Ltac in_history H :=
  repeat (apply elem_of_cons in H as [H|H]; [try discriminate H|]);
  [..|by apply elem_of_nil in H].

(** ** Rounding to float64

    Every operation of the float64 arithmetic gives the exact result up to
    the relative error [2^-53]. *)

Lemma round_half_even_error (q : Q) :
  (inject_Z (Numpy.round_half_even q) - q <= 1 # 2)%Q ∧
  (q - inject_Z (Numpy.round_half_even q) <= 1 # 2)%Q.
Proof.
  unfold Numpy.round_half_even.
  pose proof (Qfloor_le q) as Hlo. pose proof (Qlt_floor q) as Hhi.
  rewrite inject_Z_plus in Hhi. change (inject_Z 1) with 1%Q in Hhi.
  destruct (Qcompare_spec (q - inject_Z (Qfloor q)) (1 # 2)) as [H|H|H].
  - destruct (Z.even (Qfloor q)); rewrite ?inject_Z_plus;
      change (inject_Z 1) with 1%Q; split; lra.
  - split; lra.
  - rewrite inject_Z_plus. change (inject_Z 1) with 1%Q. split; lra.
Qed.

Lemma Qpower_2_pos (e : Z) : (0 < Qpower 2 e)%Q.
Proof. apply Qpower_0_lt. reflexivity. Qed.

Lemma binary_exponent_le (q : Q) :
  (0 < q)%Q → (Qpower 2 (Numpy.binary_exponent q) <= q)%Q.
Proof.
  intros Hq. unfold Numpy.binary_exponent.
  destruct (Qle_bool _ q) eqn:Hb; [by apply Qle_bool_iff|]. clear Hb.
  destruct q as [n d]. cbn [Qnum Qden].
  assert (Hn : (0 < n)%Z).
  { unfold Qlt in Hq. simpl in Hq. lia. }
  pose proof (Z.log2_spec n Hn) as [Hn1 _].
  pose proof (Z.log2_spec (Z.pos d) eq_refl) as [_ Hd2].
  pose proof (Z.log2_nonneg n) as Ha.
  pose proof (Z.log2_nonneg (Z.pos d)) as Hb.
  set (a := Z.log2 n) in *. set (b := Z.log2 (Z.pos d)) in *.
  replace (a - b - 1)%Z with (a + - (Z.succ b))%Z by lia.
  rewrite Qpower_plus by discriminate. rewrite Qpower_opp.
  rewrite <- !(Zpower_Qpower 2) by lia.
  rewrite (Qmake_Qdiv n d).
  assert (HB : (0 < 2 ^ Z.succ b)%Z) by (apply Z.pow_pos_nonneg; lia).
  assert (HA : (0 < 2 ^ a)%Z) by (apply Z.pow_pos_nonneg; lia).
  unfold Qdiv.
  apply Qle_trans with (inject_Z n * / inject_Z (2 ^ Z.succ b))%Q.
  - apply Qmult_le_compat_r.
    + rewrite <- Zle_Qle. exact Hn1.
    + apply Qinv_le_0_compat. rewrite <- (Zle_Qle 0). lia.
  - apply Qmult_le_l; [rewrite <- (Zlt_Qlt 0); lia|].
    apply Qle_shift_inv_l; [rewrite <- (Zlt_Qlt 0); lia|].
    rewrite Qmult_comm. apply Qle_shift_div_r; [rewrite <- (Zlt_Qlt 0); lia|].
    rewrite Qmult_1_l, <- Zle_Qle. lia.
Qed.

Lemma nearest_error (a : Q) :
  (0 < a)%Q →
  let e := Numpy.binary_exponent a in
  let r := (inject_Z (Numpy.round_half_even (a * Qpower 2 (52 - e)))
            * Qpower 2 (e - 52))%Q in
  (a * (1 - (1 # 9007199254740992)) <= r)%Q ∧
  (r <= a * (1 + (1 # 9007199254740992)))%Q.
Proof.
  intros Ha e r.
  pose proof (binary_exponent_le a Ha) as He. fold e in He.
  set (s := Qpower 2 (52 - e)) in *. set (t := Qpower 2 (e - 52)) in *.
  assert (Hs : (0 < s)%Q) by apply Qpower_2_pos.
  assert (Ht : (0 < t)%Q) by apply Qpower_2_pos.
  assert (Hst : (s * t == 1)%Q).
  { unfold s, t. rewrite <- Qpower_plus by discriminate.
    replace (52 - e + (e - 52))%Z with 0%Z by lia. reflexivity. }
  assert (Hte : (t == Qpower 2 e * (1 # 4503599627370496))%Q).
  { unfold t. replace (e - 52)%Z with (e + -52)%Z by lia.
    rewrite Qpower_plus by discriminate. reflexivity. }
  destruct (round_half_even_error (a * s)) as [Hm1 Hm2].
  set (m := inject_Z (Numpy.round_half_even (a * s))) in *.
  assert (Hr : (r - a == (m - a * s) * t)%Q).
  { unfold r. fold s t m.
    transitivity (m * t - a * (s * t))%Q; [rewrite Hst|]; ring. }
  assert (H1 : ((m - a * s) * t <= (1 # 2) * t)%Q).
  { apply Qmult_le_compat_r; [lra|by apply Qlt_le_weak]. }
  assert (H2 : ((-(1 # 2)) * t <= (m - a * s) * t)%Q).
  { apply Qmult_le_compat_r; [lra|by apply Qlt_le_weak]. }
  assert (H3 : ((1 # 2) * t <= a * (1 # 9007199254740992))%Q).
  { set (p := Qpower 2 e) in *. lra. }
  split; lra.
Qed.

Lemma round64_bounds (q : Qc) :
  (0 < q)%Qc →
  (q * (1 - u64) ≤ Numpy.round64 q)%Qc ∧
  (Numpy.round64 q ≤ q * (1 + u64))%Qc.
Proof.
  intros Hq.
  assert (Hq' : (0 < this q)%Q) by exact Hq.
  destruct (nearest_error (this q) Hq') as [H1 H2].
  unfold Numpy.round64.
  rewrite decide_False by (intros ->; by apply Qclt_not_eq in Hq).
  assert (Habs : Qabs q = this q).
  { destruct q as [[[|n|n] d] Hc]; [done|done|]. by vm_compute in Hq'. }
  assert (Hb : Qle_bool 0 q = true) by (by apply Qle_bool_iff, Qlt_le_weak).
  cbv zeta. rewrite Habs, Hb.
  unfold Qcle. cbn [this Q2Qc Qcmult].
  rewrite !Qred_correct.
  assert (Hm : (this (1 - u64)%Qc == 1 - (1 # 9007199254740992))%Q)
    by (by vm_compute).
  assert (Hp : (this (1 + u64)%Qc == 1 + (1 # 9007199254740992))%Q)
    by (by vm_compute).
  rewrite Hm, Hp. by split.
Qed.

Ltac qc_to_q :=
  unfold Qcle, Qclt in *;
  cbn [this Q2Qc Qcmult Qcplus Qcminus Qcopp] in *;
  rewrite ?Qred_correct in *;
  change (Qred (1 # 9007199254740992)) with (1 # 9007199254740992)%Q in *.

Lemma term_bounds_abstract (N K C P V w : Qc) :
  (0 < N)%Qc → (0 < K)%Qc → (0 < C)%Qc → (0 < P)%Qc → (0 < w)%Qc →
  (K * C * (1 - u64) ≤ P)%Qc → (P ≤ K * C * (1 + u64))%Qc →
  (V * P = N)%Qc →
  (V * (1 - u64) ≤ w)%Qc → (w ≤ V * (1 + u64))%Qc →
  (K * (1 - u64) * (w * C) ≤ N * (1 + u64))%Qc ∧
  (N * (1 - u64) ≤ K * (1 + u64) * (w * C))%Qc.
Proof.
  intros HN HK HC HP Hw HP1 HP2 HV Hw1 Hw2.
  apply (f_equal this) in HV.
  assert (HV' : (this V * this P == this N)%Q).
  { rewrite <- HV. cbn [this Q2Qc Qcmult]. by rewrite Qred_correct. }
  clear HV. unfold u64 in *.
  qc_to_q.
  set (n := this N) in *. set (k := this K) in *. set (c := this C) in *.
  set (p := this P) in *. set (v := this V) in *. set (x := this w) in *.
  split; nra.
Qed.

Lemma round64_pos (q : Qc) : (0 < q)%Qc → (0 < Numpy.round64 q)%Qc.
Proof.
  intros Hq. destruct (round64_bounds q Hq) as [Hlo _].
  unfold u64 in *. qc_to_q. set (x := this q) in *.
  set (r := this (Numpy.round64 q)) in *. lra.
Qed.

Lemma float64_term_bounds (y : list Qc) (c : Qc) :
  c ∈ y →
  let N := Qc_of_nat (length y) in
  let K := Qc_of_nat (length (Numpy.unique y)) in
  let t := (balanced_weight Numpy.binary64 y c
            * Qc_of_nat (Sklearn.count c y))%Qc in
  (K * (1 - u64) * t ≤ N * (1 + u64))%Qc ∧
  (N * (1 - u64) ≤ K * (1 + u64) * t)%Qc.
Proof.
  intros Hc N K t.
  pose proof (Qc_of_nat_pos _ (count_pos c y Hc)) as HC.
  assert (HN : (0 < N)%Qc).
  { apply Qc_of_nat_pos. destruct y; [by apply elem_of_nil in Hc|simpl; lia]. }
  assert (HK : (0 < K)%Qc).
  { apply Qc_of_nat_pos. apply elem_of_unique in Hc.
    destruct (Numpy.unique y); [by apply elem_of_nil in Hc|simpl; lia]. }
  set (C := Qc_of_nat (Sklearn.count c y)) in *.
  assert (HKC : (0 < K * C)%Qc) by (by apply Qcmult_pos_pos).
  pose proof (round64_pos _ HKC) as HP.
  destruct (round64_bounds _ HKC) as [HP1 HP2].
  set (P := Numpy.round64 (K * C)) in *.
  assert (HPne : P ≠ 0%Qc) by (intros HP0; rewrite HP0 in HP; by apply Qclt_not_eq in HP).
  assert (HV : (0 < N / P)%Qc).
  { unfold Qcdiv. apply Qcmult_pos_pos; [done|].
    by apply Qcinv_pos. }
  pose proof (round64_pos _ HV) as Hw.
  destruct (round64_bounds _ HV) as [Hw1 Hw2].
  apply (term_bounds_abstract N K C P (N / P)%Qc); try done.
  by field.
Qed.

Lemma sum_scaled_le (a b : Qc) (l : list Qc) :
  Forall (λ x, a * x ≤ b)%Qc l →
  (a * Sklearn.sum l ≤ Qc_of_nat (length l) * b)%Qc.
Proof.
  induction 1 as [|x l Hx _ IH].
  - change (a * 0 ≤ Qc_of_Z 0 * b)%Qc. rewrite Z2Qc_inj_0.
    replace (a * 0)%Qc with 0%Qc by ring.
    replace (0 * b)%Qc with 0%Qc by ring. apply Qcle_refl.
  - change (a * (x + Sklearn.sum l) ≤ Qc_of_nat (S (length l)) * b)%Qc.
    rewrite Qc_of_nat_S.
    replace (a * (x + Sklearn.sum l))%Qc
      with (a * x + a * Sklearn.sum l)%Qc by ring.
    replace ((1 + Qc_of_nat (length l)) * b)%Qc
      with (b + Qc_of_nat (length l) * b)%Qc by ring.
    by apply Qcplus_le_compat.
Qed.

Lemma sum_scaled_ge (a b : Qc) (l : list Qc) :
  Forall (λ x, b ≤ a * x)%Qc l →
  (Qc_of_nat (length l) * b ≤ a * Sklearn.sum l)%Qc.
Proof.
  induction 1 as [|x l Hx _ IH].
  - change (Qc_of_Z 0 * b ≤ a * 0)%Qc. rewrite Z2Qc_inj_0.
    replace (a * 0)%Qc with 0%Qc by ring.
    replace (0 * b)%Qc with 0%Qc by ring. apply Qcle_refl.
  - change (Qc_of_nat (S (length l)) * b ≤ a * (x + Sklearn.sum l))%Qc.
    rewrite Qc_of_nat_S.
    replace (a * (x + Sklearn.sum l))%Qc
      with (a * x + a * Sklearn.sum l)%Qc by ring.
    replace ((1 + Qc_of_nat (length l)) * b)%Qc
      with (b + Qc_of_nat (length l) * b)%Qc by ring.
    by apply Qcplus_le_compat.
Qed.

Lemma float64_weighted_count_sum (y : list Qc) :
  approximately float64_tolerance
    (weighted_count_sum Numpy.exact
       (dict_of_array (balanced_weight Numpy.binary64 y <$> Numpy.unique y))
       (Numpy.unique y) y)
    (Qc_of_nat (length y)).
Proof.
  unfold weighted_count_sum, approximately.
  change (foldr (Numpy.add Numpy.exact) 0%Qc) with Sklearn.sum.
  set (l := imap _ _).
  set (N := Qc_of_nat (length y)). set (K := Qc_of_nat (length (Numpy.unique y))).
  assert (Hl : length l = length (Numpy.unique y)) by apply length_imap.
  assert (Hterm : ∀ x, x ∈ l →
            (K * (1 - u64) * x ≤ N * (1 + u64))%Qc ∧
            (N * (1 - u64) ≤ K * (1 + u64) * x)%Qc).
  { intros x (i & Hx)%list_elem_of_lookup_1.
    apply list_lookup_imap_Some in Hx as (c & Hc & ->).
    rewrite lookup_dict_of_array, list_lookup_fmap, Hc.
    apply float64_term_bounds, elem_of_unique.
    by eapply list_elem_of_lookup_2. }
  assert (Hup : (K * (1 - u64) * Sklearn.sum l ≤ K * (N * (1 + u64)))%Qc).
  { unfold K at 2. rewrite <- Hl. apply sum_scaled_le.
    apply Forall_forall. intros x Hx. by apply Hterm. }
  assert (Hlo : (K * (N * (1 - u64)) ≤ K * (1 + u64) * Sklearn.sum l)%Qc).
  { unfold K at 1. rewrite <- Hl. apply sum_scaled_ge.
    apply Forall_forall. intros x Hx. by apply Hterm. }
  destruct (Numpy.unique y) as [|c0 cs] eqn:Hu.
  - apply unique_nil_inv in Hu. subst y. destruct l; [|done].
    split; by vm_compute.
  - assert (HK : (0 < K)%Qc) by (apply Qc_of_nat_pos; simpl; lia).
    assert (HN : (0 ≤ N)%Qc).
    { destruct y; [by vm_compute|]. apply Qclt_le_weak, Qc_of_nat_pos.
      simpl. lia. }
    assert (Hup' : ((1 - u64) * Sklearn.sum l ≤ N * (1 + u64))%Qc).
    { apply (Qcmult_lt_0_le_reg_r _ _ K HK).
      replace ((1 - u64) * Sklearn.sum l * K)%Qc
        with (K * (1 - u64) * Sklearn.sum l)%Qc by ring.
      by replace (N * (1 + u64) * K)%Qc with (K * (N * (1 + u64)))%Qc by ring. }
    assert (Hlo' : (N * (1 - u64) ≤ (1 + u64) * Sklearn.sum l)%Qc).
    { apply (Qcmult_lt_0_le_reg_r _ _ K HK).
      replace ((1 + u64) * Sklearn.sum l * K)%Qc
        with (K * (1 + u64) * Sklearn.sum l)%Qc by ring.
      by replace (N * (1 - u64) * K)%Qc with (K * (N * (1 - u64)))%Qc by ring. }
    clear Hup Hlo Hterm. unfold float64_tolerance, u64 in *.
    unfold Qcle in *. cbn [this Q2Qc Qcmult Qcplus Qcminus Qcopp] in *.
    rewrite ?Qred_correct in *.
    change (Qred (1 # 9007199254740992)) with (1 # 9007199254740992)%Q in *.
    change (Qred (1 # 2251799813685248)) with (1 # 2251799813685248)%Q in *.
    set (s := this (Sklearn.sum l)) in *. set (n := this N) in *.
    split; lra.
Qed.

Lemma model_fit_inv (lib : libraries) (files : gmap string Pandas.DataFrame)
    (tp vp mp : string) (m : Keras.Sequential) (a : Keras.fit_arguments) :
  Extern (ModelFit m a) ∈ history (train_model lib files tp vp mp fresh).2 →
  ∃ train val p cw,
    files !! tp = Some train ∧ files !! vp = Some val ∧
    (8 ≤ length (Pandas.columns train))%nat ∧
    (8 ≤ length (Pandas.columns val))%nat ∧
    Sklearn.fit_params (stats lib) (features_of train) = Ok p ∧
    class_weights_of (arith lib) (label_frame train) = Ok cw ∧
    mkdir lib "artifact" = Ok tt ∧
    pickle_dump lib "artifact/scaler.pkl" (Some p) = Ok tt ∧
    m = build_model ∧
    a = Keras.FitArguments
          (Sklearn.transform_row (arith lib) p <$> features_of train)
          (label_frame train) 2
          (Sklearn.transform_row (arith lib) p <$> features_of val,
           label_frame val) true cw ∧
    scaler (train_model lib files tp vp mp fresh).2 = Some p ∧
    adjacent_in (Extern (Mkdir "artifact"))
      (Extern (PickleDump "artifact/scaler.pkl" (Some p)))
      (history (train_model lib files tp vp mp fresh).2) ∧
    scaler_fits (history (train_model lib files tp vp mp fresh).2)
      = [features_of train] ∧
    model_fits (history (train_model lib files tp vp mp fresh).2) = [(m, a)].
Proof.
  train_cases; intros H; try (not_in_history H).
  all: apply transform_with_Ok in HT as ->; apply transform_with_Ok in HV as ->.
  all: exists train, val, p, cw; do 8 (split; [done|]).
  all: repeat (apply elem_of_cons in H as [H|H]; [try discriminate H|]);
         [|by apply elem_of_nil in H].
  all: injection H as -> ->; do 3 (split; [done|]).
  all: split; [|done].
  all: by eexists [_; _; _; _], _.
Qed.

Lemma scaler_fits_inv (lib : libraries) (files : gmap string Pandas.DataFrame)
    (tp vp mp : string) (X : matrix) :
  X ∈ scaler_fits (history (train_model lib files tp vp mp fresh).2) →
  scaler_fits (history (train_model lib files tp vp mp fresh).2) = [X] ∧
  ∃ train,
    files !! tp = Some train ∧ (8 ≤ length (Pandas.columns train))%nat ∧
    X = features_of train.
Proof.
  train_cases; try (by intros ?%elem_of_nil).
  all: intros ->%list_elem_of_singleton; split; [done|]; by exists train.
Qed.

(** With tables of eight columns and at least one row in both files, a
    directory that can be made and a pickle that can be written, the run
    gets to the fit of the network. *)
Lemma train_model_reaches_fit (lib : libraries)
    (files : gmap string Pandas.DataFrame) (tp vp mp : string)
    (train val : Pandas.DataFrame) :
  files !! tp = Some train → files !! vp = Some val →
  (8 ≤ length (Pandas.columns train))%nat →
  (8 ≤ length (Pandas.columns val))%nat →
  Pandas.values train ≠ [] → Pandas.values val ≠ [] →
  mkdir lib "artifact" = Ok tt →
  (∀ obj, pickle_dump lib "artifact/scaler.pkl" obj = Ok tt) →
  ∃ a, model_fits (history (train_model lib files tp vp mp fresh).2)
         = [(build_model, a)].
Proof.
  intros Ht' Hv' Hct' Hcv' Hnt Hnv Hmk' Hpk'.
  destruct (features_of_nonempty train Hnt) as [Hft H5t].
  destruct (features_of_nonempty val Hnv) as [Hfv H5v].
  destruct (fit_params_nonempty (stats lib) (features_of train) Hft)
    as (p' & Hp' & Hlen).
  rewrite train_model_run. cbv zeta.
  rewrite Ht', Hv', !decide_True by done.
  rewrite Hp', Hmk', Hpk', class_weights_of_Ok.
  rewrite !transform_with_nonempty by congruence.
  destruct (model_fit lib _ _) as [[]|]; [|by eexists].
  destruct (from_keras lib _) as [[]|]; [|by eexists].
  destruct (onnx_save lib _ _) as [[]|]; by eexists.
Qed.

Lemma model_fits_elem_of (h : list (event train_call))
    (m : Keras.Sequential) (a : Keras.fit_arguments) :
  Extern (ModelFit m a) ∈ h ↔ (m, a) ∈ model_fits h.
Proof.
  unfold model_fits. rewrite list_elem_of_omap. split.
  - intros H. by exists (Extern (ModelFit m a)).
  - intros ([|[]] & H & Heq); simplify_eq. done.
Qed.

Lemma train_model_reaches_pickle (lib : libraries)
    (files : gmap string Pandas.DataFrame) (tp vp mp : string)
    (train val : Pandas.DataFrame) :
  files !! tp = Some train → files !! vp = Some val →
  (8 ≤ length (Pandas.columns train))%nat →
  (8 ≤ length (Pandas.columns val))%nat →
  Pandas.values train ≠ [] →
  mkdir lib "artifact" = Ok tt →
  ∃ p, Extern (PickleDump "artifact/scaler.pkl" (Some p))
         ∈ history (train_model lib files tp vp mp fresh).2.
Proof.
  intros Ht' Hv' Hct' Hcv' Hnt Hmk'.
  destruct (features_of_nonempty train Hnt) as [Hft H5t].
  destruct (fit_params_nonempty (stats lib) (features_of train) Hft)
    as (p' & Hp' & Hlen).
  exists p'. rewrite train_model_run. cbv zeta.
  rewrite Ht', Hv', !decide_True by done.
  rewrite Hp', Hmk', transform_with_nonempty by congruence.
  assert (Hin : ∀ l,
            Extern (PickleDump "artifact/scaler.pkl" (Some p'))
              ∈ [Extern (ReadCsv tp); Extern (ReadCsv vp);
                 Extern (ScalerFit (features_of train));
                 Extern (ScalerTransform (features_of train));
                 Extern (Mkdir "artifact");
                 Extern (PickleDump "artifact/scaler.pkl" (Some p'))] ++ l).
  { intros l. apply elem_of_app. left.
    do 5 (apply elem_of_cons; right). apply elem_of_cons. by left. }
  destruct (pickle_dump lib _ _) as [[]|]; [|apply (Hin [])].
  destruct (class_weights_of _ _); [|apply (Hin [])].
  destruct (Sklearn.transform_with _ _ _); [|apply (Hin [_; _])].
  destruct (model_fit lib _ _) as [[]|]; [|apply (Hin [_; _; _])].
  destruct (from_keras lib _) as [[]|]; [|apply (Hin [_; _; _; _])].
  destruct (onnx_save lib _ _) as [[]|]; apply (Hin [_; _; _; _; _; _]).
Qed.

Lemma load_dataset_8_columns (files : gmap string Pandas.DataFrame)
    (path : string) (df : Pandas.DataFrame) (st : train_state) :
  files !! path = Some df → (8 ≤ length (Pandas.columns df))%nat →
  (load_dataset files path st).1 = Ok (feature_frame df, label_frame df).
Proof.
  intros Hdf Hc. apply read_csv_Ok in Hdf.
  unfold load_dataset, record. run.
  by rewrite Hdf, iloc_labels, iloc_features.
Qed.

Lemma rows_aligned (df : Pandas.DataFrame) (i : nat) (r : list Qc) :
  length (Pandas.columns df) = 8%nat → Pandas.well_formed df →
  Pandas.values df !! i = Some r →
  ∃ c0 c1 c2 c3 c4 c5 c6 c7,
    r = [c0; c1; c2; c3; c4; c5; c6; c7] ∧
    features_of df !! i = Some [c1; c2; c4; c5; c6] ∧
    labels_of df !! i = Some [c7].
Proof.
  intros Hc Hwf Hr.
  assert (Hlen : length r = 8%nat).
  { rewrite <- Hc. eapply Forall_lookup_1 in Hwf; [|exact Hr]. done. }
  do 9 (destruct r as [|? r]; try discriminate Hlen).
  do 8 eexists. split; [done|].
  unfold features_of, labels_of. by rewrite !list_lookup_fmap, Hr.
Qed.

(** C5. For a training file and a validation file that hold tables of
    eight columns, the trainer takes from each the columns 1, 2, 4, 5, 6 as
    the feature table and the column 7 as the label table; row i of the
    features and of the labels comes from row i of the file. The scaler is
    fitted on these training features, and the fit of the network gets the
    scaled features and the labels of both files. With at least one row in
    each file, when the directory of the scaler can be made and the scaler
    written, the run reaches that fit. *)
Theorem trainer_selects_columns (lib : libraries)
    (files : gmap string Pandas.DataFrame) (tp vp mp : string)
    (train val : Pandas.DataFrame) :
  files !! tp = Some train → files !! vp = Some val →
  length (Pandas.columns train) = 8%nat →
  length (Pandas.columns val) = 8%nat →
  Pandas.well_formed train → Pandas.well_formed val →
  (∀ st, (load_dataset files tp st).1 =
           Ok (feature_frame train, label_frame train)) ∧
  (∀ st, (load_dataset files vp st).1 =
           Ok (feature_frame val, label_frame val)) ∧
  (∀ df, df = train ∨ df = val →
     length (features_of df) = length (Pandas.values df) ∧
     length (labels_of df) = length (Pandas.values df) ∧
     ∀ i r, Pandas.values df !! i = Some r →
       ∃ c0 c1 c2 c3 c4 c5 c6 c7,
         r = [c0; c1; c2; c3; c4; c5; c6; c7] ∧
         features_of df !! i = Some [c1; c2; c4; c5; c6] ∧
         labels_of df !! i = Some [c7]) ∧
  (∀ X, X ∈ scaler_fits (history (train_model lib files tp vp mp fresh).2) →
        X = features_of train) ∧
  (∀ m a,
     Extern (ModelFit m a)
       ∈ history (train_model lib files tp vp mp fresh).2 →
     ∃ p, Keras.x a =
            Sklearn.transform_row (arith lib) p <$> features_of train ∧
          Keras.y a = label_frame train ∧
          Keras.validation_data a =
            (Sklearn.transform_row (arith lib) p <$> features_of val,
             label_frame val)) ∧
  (Pandas.values train ≠ [] → Pandas.values val ≠ [] →
   mkdir lib "artifact" = Ok tt →
   (∀ obj, pickle_dump lib "artifact/scaler.pkl" obj = Ok tt) →
   ∃ m a, Extern (ModelFit m a)
            ∈ history (train_model lib files tp vp mp fresh).2).
Proof.
  intros Ht Hv Hct Hcv Hwt Hwv.
  assert (Hct' : (8 ≤ length (Pandas.columns train))%nat) by lia.
  assert (Hcv' : (8 ≤ length (Pandas.columns val))%nat) by lia.
  split; [intros st; by apply load_dataset_8_columns|].
  split; [intros st; by apply load_dataset_8_columns|].
  split; [|split; [|split]].
  - intros df Hdf. unfold features_of, labels_of. rewrite !length_fmap.
    do 2 (split; [done|]). intros i r Hr.
    destruct Hdf as [->| ->]; by eapply rows_aligned.
  - intros X (_ & train' & Ht' & _ & ->)%scaler_fits_inv.
    rewrite Ht in Ht'. by injection Ht' as <-.
  - intros m a
      (train' & val' & p & cw & Ht' & Hv' & _ & _ & _ & _ & _ & _ & _ & ->
       & _)%model_fit_inv.
    rewrite Ht in Ht'. injection Ht' as <-.
    rewrite Hv in Hv'. injection Hv' as <-.
    by exists p.
  - intros Hnt Hnv Hmk Hpk.
    destruct (train_model_reaches_fit lib files tp vp mp train val
                Ht Hv Hct' Hcv' Hnt Hnv Hmk Hpk) as (a & Ha).
    exists build_model, a. apply model_fits_elem_of. rewrite Ha. by left.
Qed.

Lemma trainer_selects_columns_witness :
  sample_files !! "train.csv" = Some sample_train ∧
  sample_files !! "validate.csv" = Some sample_validate ∧
  length (Pandas.columns sample_train) = 8%nat ∧
  length (Pandas.columns sample_validate) = 8%nat ∧
  Pandas.well_formed sample_train ∧ Pandas.well_formed sample_validate ∧
  ∀ st, (load_dataset sample_files "train.csv" st).1 =
          Ok (feature_frame sample_train, label_frame sample_train).
Proof.
  assert (Hwt : Pandas.well_formed sample_train)
    by (repeat constructor).
  assert (Hwv : Pandas.well_formed sample_validate)
    by (repeat constructor).
  do 4 (split; [reflexivity|]). do 2 (split; [assumption|]).
  apply (trainer_selects_columns (ideal_libraries sqrt_52) sample_files
           "train.csv" "validate.csv" "model.onnx"
           sample_train sample_validate
           eq_refl eq_refl eq_refl eq_refl Hwt Hwv).
Defined.

(** C2. In every run of the trainer the scaler is fitted at most once,
    and only on the feature matrix of the training file (its columns 1, 2,
    4, 5, 6). When the network is fitted, the parameters the scaler holds,
    and that were pickled, are those of that one fit: for each of the five
    columns the mean, the variance and the scale the library computes of
    that column of the training features. The training features and the
    validation features handed to the network are both standardized with
    these same parameters: each cell has the mean of its column subtracted
    and is divided by the scale of its column. With eight columns and at
    least one row in each file, when the directory of the scaler can be
    made and the scaler written, the run reaches the fit of the network. *)
Theorem scaler_fitted_on_training_only (lib : libraries)
    (files : gmap string Pandas.DataFrame) (tp vp mp : string) :
  let out := train_model lib files tp vp mp fresh in
  (∀ X, X ∈ scaler_fits (history out.2) →
     scaler_fits (history out.2) = [X] ∧
     ∃ train,
       files !! tp = Some train ∧
       (8 ≤ length (Pandas.columns train))%nat ∧
       X = features_of train) ∧
  (∀ m a, Extern (ModelFit m a) ∈ history out.2 →
     ∃ train val p,
       files !! tp = Some train ∧ files !! vp = Some val ∧
       scaler_fits (history out.2) = [features_of train] ∧
       fitted_on (stats lib) (features_of train) p ∧
       scaler out.2 = Some p ∧
       Extern (PickleDump "artifact/scaler.pkl" (Some p)) ∈ history out.2 ∧
       Keras.x a = standardized (arith lib) p (features_of train) ∧
       (Keras.validation_data a).1 =
         standardized (arith lib) p (features_of val)) ∧
  (∀ train val,
     files !! tp = Some train → files !! vp = Some val →
     (8 ≤ length (Pandas.columns train))%nat →
     (8 ≤ length (Pandas.columns val))%nat →
     Pandas.values train ≠ [] → Pandas.values val ≠ [] →
     mkdir lib "artifact" = Ok tt →
     (∀ obj, pickle_dump lib "artifact/scaler.pkl" obj = Ok tt) →
     ∃ m a, Extern (ModelFit m a) ∈ history out.2).
Proof.
  intros out. split; [|split].
  - intros X. apply scaler_fits_inv.
  - intros m a Hin.
    destruct (model_fit_inv _ _ _ _ _ _ _ Hin)
      as (train & val & p & cw & Ht & Hv & _ & _ & Hp & _ & _ & _ & _ & ->
          & Hs & (pre & post & Hd) & Hfits & _).
    exists train, val, p.
    destruct (fit_params_features _ _ _ Hp) as [_ Hfit].
    pose proof Hfit as (Hm & _ & Hsc & _).
    do 5 (split; [done|]). split; [|split].
    + fold out in Hd. rewrite Hd. apply elem_of_app. right.
      apply elem_of_cons. right. apply elem_of_cons. by left.
    + simpl. by apply transform_row_standardized.
    + simpl. by apply transform_row_standardized.
  - intros train val Ht Hv Hct Hcv Hnt Hnv Hmk Hpk. subst out.
    destruct (train_model_reaches_fit lib files tp vp mp train val
                Ht Hv Hct Hcv Hnt Hnv Hmk Hpk) as (a & Ha).
    exists build_model, a. apply model_fits_elem_of. rewrite Ha. by left.
Qed.

Lemma scaler_fitted_on_training_only_witness :
  ∃ m a,
    Extern (ModelFit m a)
      ∈ history (train_model (ideal_libraries sqrt_52) sample_files
                   "train.csv" "validate.csv" "model.onnx" fresh).2.
Proof.
  apply (proj2 (proj2 (scaler_fitted_on_training_only
                         (ideal_libraries sqrt_52) sample_files
                         "train.csv" "validate.csv" "model.onnx"))
           sample_train sample_validate);
    first [reflexivity | simpl; lia | discriminate | done].
Defined.

(** C4, as stated, fails: in float64 the weights of 39 samples of one
    class and 11 of another are 50/78 and 50/22, rounded, and the sum over
    the classes of weight times count is not 50, neither when it is taken
    in float64 (it is 50.00000000000001) nor when it is taken exactly. *)
Lemma balanced_sum_is_not_exact_in_float64 :
  ¬ balanced_invariant Numpy.binary64 Numpy.binary64 skewed_labels ∧
  ¬ balanced_invariant Numpy.binary64 Numpy.exact skewed_labels.
Proof.
  split; intros H.
  - specialize (H _ (class_weights_of_Ok _ _)). vm_compute in H.
    discriminate H.
  - specialize (H _ (class_weights_of_Ok _ _)). vm_compute in H.
    discriminate H.
Qed.

(** C4, as the code has it. For every table, the labels are the cells of
    its column 7, and the classes are the distinct labels in ascending
    order, each with at least one sample. In every arithmetic, the trainer
    computes for the class at position i, under the key i, the quotient of
    n_samples by the product of n_classes and the count of the class, as
    that arithmetic gives them (in float64: rounded), and there is no other
    key. In exact arithmetic the sum over the classes of weight times count
    is the number of samples; with the weights of float64 that sum, taken
    exactly, is the number of samples up to the relative error 2^-51. The
    weights handed to the fit of the network are the ones computed, in the
    arithmetic of the library, from the label column of the training
    file. *)
Theorem class_weights_are_balanced (ar : Numpy.arithmetic)
    (df : Pandas.DataFrame) (lib : libraries)
    (files : gmap string Pandas.DataFrame) (tp vp mp : string) :
  let y := (λ r, nth 7 r 0%Qc) <$> Pandas.values df in
  let classes := Numpy.unique y in
  Numpy.ravel (Pandas.values (label_frame df)) = y ∧
  StronglySorted Qclt classes ∧
  (∀ c, c ∈ classes ↔ c ∈ y) ∧
  (∀ c, Sklearn.count c y = count_occ Qc_eq_dec y c) ∧
  (∃ cw,
     class_weights_of ar (label_frame df) = Ok cw ∧
     (∀ i c, classes !! i = Some c →
        (0 < Sklearn.count c y)%nat ∧
        cw !! i =
          Some (Numpy.div ar (Qc_of_nat (length y))
                  (Numpy.mul ar (Qc_of_nat (length classes))
                     (Qc_of_nat (Sklearn.count c y))))) ∧
     (∀ i, (length classes ≤ i)%nat → cw !! i = None)) ∧
  balanced_invariant Numpy.exact Numpy.exact (label_frame df) ∧
  (∀ cw, class_weights_of Numpy.binary64 (label_frame df) = Ok cw →
     approximately float64_tolerance
       (weighted_count_sum Numpy.exact cw classes y)
       (Qc_of_nat (length y))) ∧
  (∀ m a,
     Extern (ModelFit m a)
       ∈ history (train_model lib files tp vp mp fresh).2 →
     ∃ train,
       files !! tp = Some train ∧ Keras.y a = label_frame train ∧
       class_weights_of (arith lib) (label_frame train)
         = Ok (Keras.class_weight a)).
Proof.
  intros y classes.
  split; [apply ravel_labels|]. split; [apply unique_sorted|].
  split; [intros c; apply elem_of_unique|].
  split; [intros c; apply count_count_occ|].
  split; [|split; [|split]].
  - eexists. split; [apply class_weights_of_Ok|].
    rewrite ravel_labels. fold y classes. split.
    + intros i c Hc. split.
      * apply count_pos, elem_of_unique. by eapply list_elem_of_lookup_2.
      * by rewrite lookup_dict_of_array, list_lookup_fmap, Hc.
    + intros i Hi. rewrite lookup_dict_of_array.
      apply lookup_ge_None. by rewrite length_fmap.
  - intros cw. rewrite class_weights_of_Ok. intros [= <-].
    apply exact_weighted_count_sum.
  - intros cw. rewrite class_weights_of_Ok, ravel_labels. intros [= <-].
    apply float64_weighted_count_sum.
  - intros m a
      (train & val & p & cw & Ht & _ & _ & _ & _ & Hcw & _ & _ & _ & ->
       & _)%model_fit_inv.
    by exists train.
Qed.




(** ** Sample runs *)

Example sample_strings :
  str_in "svc" "https://ds-pipeline-dspa.fraud.svc:8443" = true ∧
  str_in "svc" "https://pipelines.example.com" = false ∧
  rstrip "sha256~token " = "sha256~token".
Proof. by vm_compute. Qed.

Example sample_upload_without_bucket :
  fails_before_network
    (upload_model Boto3.documented
       (World (<["S3_KEY" := "models/fraud/1/model.onnx"]> ∅) ∅)
       "/tmp/model.onnx" []).
Proof.
  split; [by eexists|]. intros c. vm_compute. by intros ?%elem_of_nil.
Qed.

Example sample_class_weights :
  ∃ cw,
    class_weights_of Numpy.exact (label_frame sample_train) = Ok cw ∧
    cw !! 0%nat = Some (Q2Qc (2 # 3)) ∧ cw !! 1%nat = Some (Q2Qc 2) ∧
    cw !! 2%nat = None.
Proof.
  eexists. split; [apply class_weights_of_Ok|].
  rewrite !lookup_dict_of_array.
  repeat split; try done; simpl; f_equal; by apply Qc_is_canon.
Qed.

Example sample_class_weights_in_float64 :
  ∃ cw,
    class_weights_of Numpy.binary64 skewed_labels = Ok cw ∧
    cw !! 0%nat = Some (Q2Qc (5773845676116021 # 9007199254740992)) ∧
    cw !! 1%nat = Some (Q2Qc (5117726849284655 # 2251799813685248)) ∧
    weighted_count_sum Numpy.binary64 cw [Qc_of_Z 0; Qc_of_Z 1]
      (Numpy.ravel (Pandas.values skewed_labels))
      = Q2Qc (7036874417766401 # 140737488355328).
Proof.
  eexists. split; [apply class_weights_of_Ok|].
  split; [|split]; vm_compute; repeat f_equal; by apply Qc_is_canon.
Qed.

Example sample_square_roots :
  sqrt_52 (Q2Qc 4) = Q2Qc 2 ∧ sqrt_52 (Q2Qc (1 # 4)) = Q2Qc (1 # 2) ∧
  sqrt_52 (Q2Qc 2) = Q2Qc (6369051672525772 # 4503599627370496).
Proof. repeat split; by apply Qc_is_canon. Qed.

Example sample_training_run :
  let out :=
    train_model (ideal_libraries sqrt_52) sample_files
      "train.csv" "validate.csv" "model.onnx" fresh in
  out.1 = Ok tt ∧
  scaler_fits (history out.2) = [features_of sample_train] ∧
  Sklearn.mean_ <$> scaler out.2
    = Some [Q2Qc (7 # 2); Q2Qc 2; Q2Qc (1 # 2); Q2Qc (1 # 4); Q2Qc (1 # 2)].
Proof.
  simpl. split; [by vm_compute|]. split; [by vm_compute|].
  vm_compute. f_equal.
  repeat (apply (f_equal2 cons); [by apply Qc_is_canon|]). done.
Qed.

(** * Further properties of the code *)

(** ** The fetcher *)

(** X1. The fetcher downloads the training file first and the validation
    file second, each from its fixed address to the path it was given. It
    succeeds exactly when both downloads do; when the first fails, its
    error is the step's error and the second download is never started;
    otherwise the step's result is that of the second download. *)
Theorem get_data_downloads_in_order (net : string → result unit)
    (tp vp : string) :
  let out := get_data net tp vp [] in
  (out.1 = Ok tt ↔
     net train_csv_url = Ok tt ∧ net validate_csv_url = Ok tt) ∧
  (∀ e, net train_csv_url = Raise e →
        out.1 = Raise e ∧ downloads out.2 = [(train_csv_url, tp)]) ∧
  (net train_csv_url = Ok tt →
     out.1 = net validate_csv_url ∧
     downloads out.2 = [(train_csv_url, tp); (validate_csv_url, vp)]).
Proof.
  unfold get_data, urlretrieve. run.
  fold train_csv_url validate_csv_url.
  destruct (net train_csv_url) as [[]|e1]; simpl;
    [destruct (net validate_csv_url) as [[]|e2]; simpl|].
  all: repeat split; try done; try (by intros [? ?]);
       try (by intros ? [= <-]); try (by intros [= ?]).
Qed.

(** ** The trainer: what a run writes *)

(** X2. A run of the trainer asks to save a model only as its last call:
    the network it built, at the output path it was given, after the one
    fit of that network and its conversion have returned. The run succeeds
    exactly when it gets to that call and the call returns; a run that
    fails earlier never asks to write a model file. *)
Theorem model_saved_iff_run_succeeds (lib : libraries)
    (files : gmap string Pandas.DataFrame) (tp vp mp : string) :
  let out := train_model lib files tp vp mp fresh in
  (∀ m path, Extern (OnnxSave m path) ∈ history out.2 →
     m = build_model ∧ path = mp ∧
     (∃ pre, history out.2 = pre ++ [Extern (OnnxSave m path)]) ∧
     from_keras lib build_model = Ok tt ∧
     ∃ a, model_fits (history out.2) = [(build_model, a)] ∧
          model_fit lib build_model a = Ok tt) ∧
  (out.1 = Ok tt ↔
     Extern (OnnxSave build_model mp) ∈ history out.2 ∧
     onnx_save lib build_model mp = Ok tt).
Proof.
  train_cases.
  1, 2: split;
    [intros m path H; in_history H; injection H as -> ->;
     do 2 (split; [done|]); split; [by eexists [_; _; _; _; _; _; _; _; _; _; _]|];
     split; [done|]; by eexists
    |split; [intros Hok | intros [_ Hok]]; try done].
  1: { split; [|done].
       do 11 (apply elem_of_cons; right). apply elem_of_cons. by left. }
  all: split; [intros m path H; not_in_history H|].
  all: split; [done|intros [H _]; not_in_history H].
Qed.

(** X3. Whatever the trainer pickles is a fitted scaler: the file is
    artifact/scaler.pkl, the call that makes its directory comes right
    before and has returned, and the object holds the parameters fitted on
    the training features. *)
Theorem pickled_scaler_is_fitted (lib : libraries)
    (files : gmap string Pandas.DataFrame) (tp vp mp : string)
    (path : string) (obj : option Sklearn.fitted) :
  let out := train_model lib files tp vp mp fresh in
  Extern (PickleDump path obj) ∈ history out.2 →
  path = "artifact/scaler.pkl" ∧
  adjacent_in (Extern (Mkdir "artifact")) (Extern (PickleDump path obj))
    (history out.2) ∧
  mkdir lib "artifact" = Ok tt ∧
  ∃ train p,
    files !! tp = Some train ∧
    Sklearn.fit_params (stats lib) (features_of train) = Ok p ∧
    fitted_on (stats lib) (features_of train) p ∧
    obj = Some p.
Proof.
  train_cases; intros H; try (not_in_history H).
  all: in_history H; injection H as -> ->.
  all: split; [done|]; split; [by eexists [_; _; _; _], _|].
  all: split; [done|]; exists train, p; split; [done|].
  all: split; [done|]; split; [|done].
  all: by apply fit_params_features.
Qed.

(** ** The trainer: inputs it cannot use *)

(** X4. When an input file is missing, or a table has fewer than eight
    columns, the trainer raises (file not found, or the positional index
    error of the column selection) having done nothing but read: the scaler
    is unfitted and nothing is pickled, trained or saved. Both files are
    loaded before any fitting, so this holds for the validation file too. *)
Theorem unusable_input_fails_before_fitting (lib : libraries)
    (files : gmap string Pandas.DataFrame) (tp vp mp : string) :
  (files !! tp = None ∨ files !! vp = None ∨
   ∃ df, (files !! tp = Some df ∨ files !! vp = Some df) ∧
         (length (Pandas.columns df) < 8)%nat) →
  let out := train_model lib files tp vp mp fresh in
  (∃ e, out.1 = Raise e ∧
        (e = FileNotFoundError tp ∨ e = FileNotFoundError vp ∨
         e = IndexError "positional indexers are out-of-bounds")) ∧
  scaler out.2 = None ∧
  ∀ c, Extern c ∈ history out.2 → c = ReadCsv tp ∨ c = ReadCsv vp.
Proof.
  intros Hbad. cbv zeta. rewrite train_model_run. cbv zeta.
  assert (Hreads : ∀ c,
            Extern c ∈ [Extern (ReadCsv tp); Extern (ReadCsv vp)] →
            c = ReadCsv tp ∨ c = ReadCsv vp).
  { intros c. rewrite !elem_of_cons, elem_of_nil.
    intros [[= ->]|[[= ->]|[]]]; auto. }
  assert (Hread : ∀ c, Extern c ∈ [Extern (ReadCsv tp)] →
            c = ReadCsv tp ∨ c = ReadCsv vp).
  { intros c Hc. apply Hreads. apply elem_of_cons in Hc as [->|Hc];
      [left|by apply elem_of_nil in Hc]. }
  destruct (files !! tp) as [train|] eqn:Ht; simpl; [|by eauto 10].
  case_decide as Hnt; simpl; [|by eauto 10].
  destruct (files !! vp) as [val|] eqn:Hv; simpl; [|by eauto 10].
  case_decide as Hnv; simpl; [|by eauto 10].
  exfalso. destruct Hbad as [?|[?|(df & [?|?] & ?)]]; simplify_eq; lia.
Qed.

Lemma unusable_input_fails_before_fitting_witness :
  (length (Pandas.columns narrow_table) < 8)%nat ∧
  ∃ e, (train_model (ideal_libraries sqrt_52)
          (<["train.csv" := narrow_table]> sample_files)
          "train.csv" "validate.csv" "model.onnx" fresh).1 = Raise e.
Proof.
  split; [vm_compute; lia|].
  destruct (unusable_input_fails_before_fitting (ideal_libraries sqrt_52)
              (<["train.csv" := narrow_table]> sample_files)
              "train.csv" "validate.csv" "model.onnx")
    as [(e & He & _) _].
  - right. right. exists narrow_table. split; [by left|vm_compute; lia].
  - by exists e.
Defined.

(** X5. With a training table of eight columns and no row, the run stops
    at the fit of the scaler with the value error of an empty array: both
    files were read, the scaler stays unfitted, nothing is pickled. *)
Theorem empty_training_table_fails_at_fit (lib : libraries)
    (files : gmap string Pandas.DataFrame) (tp vp mp : string)
    (train val : Pandas.DataFrame) :
  files !! tp = Some train → files !! vp = Some val →
  (8 ≤ length (Pandas.columns train))%nat →
  (8 ≤ length (Pandas.columns val))%nat →
  Pandas.values train = [] →
  train_model lib files tp vp mp fresh =
    (Raise (ValueError "Found array with 0 sample(s)"),
     TrainState None
       [Extern (ReadCsv tp); Extern (ReadCsv vp); Extern (ScalerFit [])]).
Proof.
  intros Ht Hv Hct Hcv Hrows.
  rewrite train_model_run. cbv zeta.
  rewrite Ht, Hv, !decide_True by done.
  by rewrite (features_of_nil train Hrows), fit_params_nil.
Qed.

Lemma empty_training_table_fails_at_fit_witness :
  Pandas.values empty_table = [] ∧
  (train_model (ideal_libraries sqrt_52)
     (<["train.csv" := empty_table]> sample_files)
     "train.csv" "validate.csv" "model.onnx" fresh).1 =
    Raise (ValueError "Found array with 0 sample(s)").
Proof.
  split; [reflexivity|].
  rewrite (empty_training_table_fails_at_fit (ideal_libraries sqrt_52)
             (<["train.csv" := empty_table]> sample_files)
             "train.csv" "validate.csv" "model.onnx"
             empty_table sample_validate);
    [reflexivity|reflexivity|reflexivity|vm_compute; lia|vm_compute; lia
    |reflexivity].
Defined.

(** X6. With a validation table of eight columns and no row (and a
    training table with rows), when the directory of the scaler can be made
    and the scaler written, the run fails only when the validation features
    are transformed: by then the fitted scaler has been pickled, but no
    network is trained and no model saved. *)
Theorem empty_validation_table_fails_after_pickling (lib : libraries)
    (files : gmap string Pandas.DataFrame) (tp vp mp : string)
    (train val : Pandas.DataFrame) :
  files !! tp = Some train → files !! vp = Some val →
  (8 ≤ length (Pandas.columns train))%nat →
  (8 ≤ length (Pandas.columns val))%nat →
  Pandas.values train ≠ [] → Pandas.values val = [] →
  mkdir lib "artifact" = Ok tt →
  (∀ obj, pickle_dump lib "artifact/scaler.pkl" obj = Ok tt) →
  ∃ p,
    Sklearn.fit_params (stats lib) (features_of train) = Ok p ∧
    train_model lib files tp vp mp fresh =
      (Raise (ValueError "Found array with 0 sample(s)"),
       TrainState (Some p)
         [Extern (ReadCsv tp); Extern (ReadCsv vp);
          Extern (ScalerFit (features_of train));
          Extern (ScalerTransform (features_of train));
          Extern (Mkdir "artifact");
          Extern (PickleDump "artifact/scaler.pkl" (Some p));
          Extern (ModelSummary build_model);
          Extern (ScalerTransform [])]).
Proof.
  intros Ht Hv Hct Hcv Hnt Hrows Hmk Hpk.
  destruct (features_of_nonempty train Hnt) as [Hft H5t].
  destruct (fit_params_nonempty (stats lib) (features_of train) Hft)
    as (p & Hp & Hlen).
  exists p. split; [done|].
  rewrite train_model_run. cbv zeta.
  rewrite Ht, Hv, !decide_True by done.
  rewrite Hp, Hmk, Hpk, class_weights_of_Ok.
  rewrite transform_with_nonempty by congruence.
  by rewrite (features_of_nil val Hrows).
Qed.

Lemma empty_validation_table_fails_after_pickling_witness :
  Pandas.values sample_train ≠ [] ∧ Pandas.values empty_table = [] ∧
  (train_model (ideal_libraries sqrt_52)
     (<["validate.csv" := empty_table]> sample_files)
     "train.csv" "validate.csv" "model.onnx" fresh).1 =
    Raise (ValueError "Found array with 0 sample(s)").
Proof.
  split; [discriminate|]. split; [reflexivity|].
  destruct (empty_validation_table_fails_after_pickling
              (ideal_libraries sqrt_52)
              (<["validate.csv" := empty_table]> sample_files)
              "train.csv" "validate.csv" "model.onnx"
              sample_train empty_table) as (p & _ & ->);
    [reflexivity|reflexivity|vm_compute; lia|vm_compute; lia|discriminate
    |reflexivity|reflexivity|reflexivity|reflexivity].
Defined.

(** ** The trainer: what weighting achieves *)

Lemma balanced_weight_antitone (y : list Qc) (c d : Qc) :
  c ∈ y → (Sklearn.count c y < Sklearn.count d y)%nat →
  (balanced_weight Numpy.exact y d < balanced_weight Numpy.exact y c)%Qc.
Proof.
  intros Hc Hlt.
  pose proof (count_pos c y Hc) as Hcc.
  assert (Hn : (0 < length y)%nat).
  { pose proof (length_filter (λ v, v = d) y). unfold Sklearn.count in Hlt.
    lia. }
  assert (Hk : (0 < length (Numpy.unique y))%nat).
  { apply elem_of_unique in Hc.
    destruct (Numpy.unique y); [by apply elem_of_nil in Hc|simpl; lia]. }
  pose proof (Qc_of_nat_pos _ Hn) as HN.
  pose proof (Qc_of_nat_pos _ Hk) as HK.
  pose proof (Qc_of_nat_pos _ Hcc) as HC.
  assert (HD : (0 < Qc_of_nat (Sklearn.count d y))%Qc)
    by (apply Qc_of_nat_pos; lia).
  pose proof (Qc_of_nat_lt _ _ Hlt) as HCD.
  unfold balanced_weight. cbn [Numpy.div Numpy.mul Numpy.exact].
  set (N := Qc_of_nat (length y)) in *.
  set (K := Qc_of_nat (length (Numpy.unique y))) in *.
  set (C := Qc_of_nat (Sklearn.count c y)) in *.
  set (D := Qc_of_nat (Sklearn.count d y)) in *.
  assert (K ≠ 0%Qc) by (intros ->; by apply Qclt_not_eq in HK).
  assert (C ≠ 0%Qc) by (intros ->; by apply Qclt_not_eq in HC).
  assert (D ≠ 0%Qc) by (intros ->; by apply Qclt_not_eq in HD).
  apply (Qcmult_lt_mono_pos_r _ _ (K * C * D)%Qc).
  { by repeat apply Qcmult_pos_pos. }
  replace (N / (K * D) * (K * C * D))%Qc with (N * C)%Qc by (by field).
  replace (N / (K * C) * (K * C * D))%Qc with (N * D)%Qc by (by field).
  by apply Qcmult_lt_mono_pos_l.
Qed.

(** In float64 the rounding of the product and of the quotient cannot undo
    the difference of one sample, as long as the smaller count is at most
    [2^50]. *)
Lemma antitone_abstract (N K C D Pc Pd Vc Vd wc wd : Q) :
  (0 < N)%Q → (0 < K)%Q → (1 <= C)%Q → (C + 1 <= D)%Q →
  (C <= 1125899906842624)%Q →
  (0 < Pc)%Q → (0 < Pd)%Q →
  (Pc <= K * C * (1 + (1 # 9007199254740992)))%Q →
  (K * D * (1 - (1 # 9007199254740992)) <= Pd)%Q →
  (Vc * Pc == N)%Q → (Vd * Pd == N)%Q →
  (Vc * (1 - (1 # 9007199254740992)) <= wc)%Q →
  (wd <= Vd * (1 + (1 # 9007199254740992)))%Q →
  (wd < wc)%Q.
Proof.
  intros HN HK HC HD HC50 HPc HPd HPc2 HPd1 HVc HVd Hwc Hwd.
  assert (HVc0 : (0 < Vc)%Q) by nra.
  assert (HVd0 : (0 < Vd)%Q) by nra.
  assert (HP : (Pc * (1 + (1 # 9007199254740992))
                < Pd * (1 - (1 # 9007199254740992)))%Q).
  { assert (K * C * (1 + (1 # 9007199254740992)) * (1 + (1 # 9007199254740992))
            < K * D * (1 - (1 # 9007199254740992)) * (1 - (1 # 9007199254740992)))%Q.
    { assert (C * (1 + (1 # 9007199254740992)) * (1 + (1 # 9007199254740992))
            < D * (1 - (1 # 9007199254740992)) * (1 - (1 # 9007199254740992)))%Q by lra.
      nra. }
    lra. }
  assert (HV : (Vd * (1 + (1 # 9007199254740992))
                < Vc * (1 - (1 # 9007199254740992)))%Q).
  { apply (Qmult_lt_r _ _ (Pc * Pd)); [nra|].
    setoid_replace (Vd * (1 + (1 # 9007199254740992)) * (Pc * Pd))%Q
      with (N * (Pc * (1 + (1 # 9007199254740992))))%Q
      using relation Qeq by (rewrite <- HVd; ring).
    setoid_replace (Vc * (1 - (1 # 9007199254740992)) * (Pc * Pd))%Q
      with (N * (Pd * (1 - (1 # 9007199254740992))))%Q
      using relation Qeq by (rewrite <- HVc; ring).
    by apply Qmult_lt_l. }
  lra.
Qed.

Lemma this_Qc_of_nat (n : nat) : (this (Qc_of_nat n) == inject_Z (Z.of_nat n))%Q.
Proof. reflexivity. Qed.

Lemma balanced_weight_antitone_float64 (y : list Qc) (c d : Qc) :
  c ∈ y → (Sklearn.count c y < Sklearn.count d y)%nat →
  (Z.of_nat (Sklearn.count c y) ≤ 2 ^ 50)%Z →
  (balanced_weight Numpy.binary64 y d
   < balanced_weight Numpy.binary64 y c)%Qc.
Proof.
  intros Hc Hlt H50.
  pose proof (count_pos c y Hc) as Hcc.
  assert (Hn : (0 < length y)%nat).
  { destruct y; [by apply elem_of_nil in Hc|simpl; lia]. }
  assert (Hk : (0 < length (Numpy.unique y))%nat).
  { apply elem_of_unique in Hc.
    destruct (Numpy.unique y); [by apply elem_of_nil in Hc|simpl; lia]. }
  pose proof (Qc_of_nat_pos _ Hn) as HN.
  pose proof (Qc_of_nat_pos _ Hk) as HK.
  pose proof (Qc_of_nat_pos _ Hcc) as HC.
  assert (HD : (0 < Qc_of_nat (Sklearn.count d y))%Qc)
    by (apply Qc_of_nat_pos; lia).
  unfold balanced_weight. cbn [Numpy.div Numpy.mul Numpy.binary64].
  pose proof (this_Qc_of_nat (Sklearn.count c y)) as HCz.
  pose proof (this_Qc_of_nat (Sklearn.count d y)) as HDz.
  set (N := Qc_of_nat (length y)) in *.
  set (K := Qc_of_nat (length (Numpy.unique y))) in *.
  set (C := Qc_of_nat (Sklearn.count c y)) in *.
  set (D := Qc_of_nat (Sklearn.count d y)) in *.
  assert (HKC : (0 < K * C)%Qc) by (by apply Qcmult_pos_pos).
  assert (HKD : (0 < K * D)%Qc) by (by apply Qcmult_pos_pos).
  pose proof (round64_pos _ HKC) as HPc.
  pose proof (round64_pos _ HKD) as HPd.
  destruct (round64_bounds _ HKC) as [_ HPc2].
  destruct (round64_bounds _ HKD) as [HPd1 _].
  set (Pc := Numpy.round64 (K * C)) in *.
  set (Pd := Numpy.round64 (K * D)) in *.
  assert (HPcne : Pc ≠ 0%Qc)
    by (intros H0; rewrite H0 in HPc; by apply Qclt_not_eq in HPc).
  assert (HPdne : Pd ≠ 0%Qc)
    by (intros H0; rewrite H0 in HPd; by apply Qclt_not_eq in HPd).
  assert (HVc : (0 < N / Pc)%Qc).
  { unfold Qcdiv. apply Qcmult_pos_pos; [done|]. by apply Qcinv_pos. }
  assert (HVd : (0 < N / Pd)%Qc).
  { unfold Qcdiv. apply Qcmult_pos_pos; [done|]. by apply Qcinv_pos. }
  destruct (round64_bounds _ HVc) as [Hwc _].
  destruct (round64_bounds _ HVd) as [_ Hwd].
  assert (HVcP : ((N / Pc) * Pc = N)%Qc) by (by field).
  assert (HVdP : ((N / Pd) * Pd = N)%Qc) by (by field).
  set (Vc := (N / Pc)%Qc) in *. set (Vd := (N / Pd)%Qc) in *.
  apply (f_equal this) in HVcP, HVdP.
  assert (HVcP' : (this Vc * this Pc == this N)%Q).
  { rewrite <- HVcP. cbn [this Q2Qc Qcmult]. by rewrite Qred_correct. }
  assert (HVdP' : (this Vd * this Pd == this N)%Q).
  { rewrite <- HVdP. cbn [this Q2Qc Qcmult]. by rewrite Qred_correct. }
  clear HVcP HVdP. unfold u64 in *. qc_to_q.
  apply (antitone_abstract (this N) (this K) (this C) (this D)
           (this Pc) (this Pd) (this Vc) (this Vd)); try done.
  - rewrite HCz. rewrite <- (Zle_Qle 1). lia.
  - rewrite HCz, HDz. change 1%Q with (inject_Z 1).
    rewrite <- inject_Z_plus, <- Zle_Qle. lia.
  - rewrite HCz. rewrite <- (Zle_Qle _ 1125899906842624). exact H50.
Qed.

(** X9. Of two classes present in the training labels, the one with fewer
    samples gets the strictly larger weight: in exact arithmetic always,
    and in float64 when the smaller count is at most 2^50. *)
Theorem rarer_class_weighs_more (y_train : Pandas.DataFrame) (i j : nat)
    (c d : Qc) :
  let y := Numpy.ravel (Pandas.values y_train) in
  Numpy.unique y !! i = Some c → Numpy.unique y !! j = Some d →
  (Sklearn.count c y < Sklearn.count d y)%nat →
  (∃ cw wi wj,
     class_weights_of Numpy.exact y_train = Ok cw ∧
     cw !! i = Some wi ∧ cw !! j = Some wj ∧ (wj < wi)%Qc) ∧
  ((Z.of_nat (Sklearn.count c y) ≤ 2 ^ 50)%Z →
   ∃ cw wi wj,
     class_weights_of Numpy.binary64 y_train = Ok cw ∧
     cw !! i = Some wi ∧ cw !! j = Some wj ∧ (wj < wi)%Qc).
Proof.
  intros y Hi Hj Hlt.
  assert (Hc : c ∈ y).
  { apply elem_of_unique. by eapply list_elem_of_lookup_2. }
  split; [|intros H50].
  - exists (dict_of_array (balanced_weight Numpy.exact y <$> Numpy.unique y)),
      (balanced_weight Numpy.exact y c), (balanced_weight Numpy.exact y d).
    split; [apply class_weights_of_Ok|].
    rewrite !lookup_dict_of_array, !list_lookup_fmap, Hi, Hj.
    do 2 (split; [done|]). by apply balanced_weight_antitone.
  - exists
      (dict_of_array (balanced_weight Numpy.binary64 y <$> Numpy.unique y)),
      (balanced_weight Numpy.binary64 y c),
      (balanced_weight Numpy.binary64 y d).
    split; [apply class_weights_of_Ok|].
    rewrite !lookup_dict_of_array, !list_lookup_fmap, Hi, Hj.
    do 2 (split; [done|]). by apply balanced_weight_antitone_float64.
Qed.

Lemma rarer_class_weighs_more_witness :
  ∃ cw wi wj,
    class_weights_of Numpy.binary64 (label_frame sample_train) = Ok cw ∧
    cw !! 1%nat = Some wi ∧ cw !! 0%nat = Some wj ∧ (wj < wi)%Qc.
Proof.
  apply (rarer_class_weighs_more (label_frame sample_train) 1 0
           (Qc_of_Z 1) (Qc_of_Z 0)).
  - vm_compute. reflexivity.
  - vm_compute. reflexivity.
  - vm_compute. lia.
  - vm_compute. discriminate.
Defined.

Lemma unique_binary (y : list Qc) :
  Forall (λ v, v = Qc_of_Z 0 ∨ v = Qc_of_Z 1) y →
  Numpy.unique y = [] ∨ Numpy.unique y = [Qc_of_Z 0] ∨
  Numpy.unique y = [Qc_of_Z 1] ∨ Numpy.unique y = [Qc_of_Z 0; Qc_of_Z 1].
Proof.
  induction 1 as [|v y Hv _ IH]; [by left|].
  change (Numpy.unique (v :: y)) with (Numpy.insert_unique v (Numpy.unique y)).
  destruct Hv as [-> | ->], IH as [-> | [-> | [-> | ->]]]; auto.
Qed.

(** X10. When the training labels are 0 and 1 and both occur, the weight
    dictionary has exactly the keys 0 and 1, and the key is the class:
    each holds n_samples / (2 * count of that class), the product and the
    quotient taken in the arithmetic of the library. *)
Theorem binary_labels_are_keyed_by_class (ar : Numpy.arithmetic)
    (y_train : Pandas.DataFrame) :
  let y := Numpy.ravel (Pandas.values y_train) in
  Forall (λ v, v = Qc_of_Z 0 ∨ v = Qc_of_Z 1) y →
  Qc_of_Z 0 ∈ y → Qc_of_Z 1 ∈ y →
  ∃ cw,
    class_weights_of ar y_train = Ok cw ∧
    cw !! 0%nat =
      Some (Numpy.div ar (Qc_of_nat (length y))
              (Numpy.mul ar (Qc_of_nat 2)
                 (Qc_of_nat (Sklearn.count (Qc_of_Z 0) y)))) ∧
    cw !! 1%nat =
      Some (Numpy.div ar (Qc_of_nat (length y))
              (Numpy.mul ar (Qc_of_nat 2)
                 (Qc_of_nat (Sklearn.count (Qc_of_Z 1) y)))) ∧
    ∀ i, (2 ≤ i)%nat → cw !! i = None.
Proof.
  intros y Hbin H0 H1.
  assert (Hu : Numpy.unique y = [Qc_of_Z 0; Qc_of_Z 1]).
  { apply elem_of_unique in H0, H1.
    destruct (unique_binary y Hbin) as [Hu|[Hu|[Hu|Hu]]]; [..|done];
      rewrite Hu in H0, H1.
    - by apply elem_of_nil in H0.
    - apply list_elem_of_singleton in H1. discriminate H1.
    - apply list_elem_of_singleton in H0. discriminate H0. }
  eexists. split; [apply class_weights_of_Ok|]. fold y.
  split; [|split].
  - rewrite lookup_dict_of_array, Hu. simpl. unfold balanced_weight.
    by rewrite Hu.
  - rewrite lookup_dict_of_array, Hu. simpl. unfold balanced_weight.
    by rewrite Hu.
  - intros i Hi. rewrite lookup_dict_of_array, Hu.
    apply lookup_ge_None. simpl. lia.
Qed.

Lemma binary_labels_are_keyed_by_class_witness :
  ∃ cw,
    class_weights_of Numpy.binary64 (label_frame sample_train) = Ok cw ∧
    ∀ i, (2 ≤ i)%nat → cw !! i = None.
Proof.
  destruct (binary_labels_are_keyed_by_class Numpy.binary64
              (label_frame sample_train))
    as (cw & Hcw & _ & _ & Hnone).
  - vm_compute.
    repeat (apply Forall_cons; split; [first [by left | by right]|]).
    constructor.
  - vm_compute. repeat constructor.
  - vm_compute. repeat constructor.
  - by exists cw.
Defined.

(** ** The upload step and the environment the pipeline gives it *)

(** X11. The upload step returns normally only if the request was sent
    and the storage service accepted it; an error answered by the service
    is raised unchanged, after the request was sent. *)
Theorem upload_succeeds_only_when_stored (lib : Boto3.library) (w : world)
    (path : string) :
  let out := upload_model lib w path [] in
  let sent := Boto3.PutObject (bucket_of w) path (environ w !! "S3_KEY") in
  (out.1 = Ok tt ↔
     ¬ library_refuses lib w path ∧
     Boto3.transfer lib w (bucket_of w) path (environ w !! "S3_KEY")
       = Boto3.Sent (Ok tt)) ∧
  (out.1 = Ok tt → Extern sent ∈ out.2) ∧
  (∀ e, ¬ library_refuses lib w path →
        Boto3.transfer lib w (bucket_of w) path (environ w !! "S3_KEY")
          = Boto3.Sent (Raise e) →
        out.1 = Raise e ∧ Extern sent ∈ out.2).
Proof.
  cbv zeta. rewrite upload_model_run. unfold library_refuses.
  destruct (Boto3.check_session lib _ _ _) as [[]|e1]; simpl;
    [destruct (Boto3.check_resource lib _ _ _ _ _ _) as [[]|e2]; simpl;
     [destruct (Boto3.check_bucket lib _ _ _) as [[]|e3]; simpl;
      [destruct (Boto3.transfer lib _ _ _ _) as [e4|[[]|e5]]; simpl|]|]|].
  all: assert (Hin : ∀ l,
         Extern (Boto3.PutObject (bucket_of w) path (environ w !! "S3_KEY"))
           ∈ l :: Extern (Boto3.PutObject (bucket_of w) path
                            (environ w !! "S3_KEY")) :: [])
         by (intros l; apply elem_of_cons; right; apply elem_of_cons;
             by left).
  all: split; [split|split].
  all: try discriminate.
  all: try (by intros [_ ?]).
  all: try (intros e Hno ?; exfalso; apply Hno; by eauto 10).
  all: try (intros e _ [= <-]; by split).
  all: try (intros [Hno _]; exfalso; apply Hno; by eauto 10).
  all: try (intros _; by apply Hin).
  all: try (intros _; split; [|done];
            intros [[? ?]|[[? ?]|[[? ?]|[? ?]]]]; discriminate).
Qed.

(** X12. The upload step itself reads six variables of the environment
    and nothing else: in two environments that agree on them, and in which
    the library gives the same answers to what the step hands it, the step
    runs the same. Whatever else of the environment or of the file system
    bears on a run does so through the library. *)
Theorem upload_reads_only_its_six_variables (lib : Boto3.library)
    (w1 w2 : world) (path : string) :
  (∀ v, v ∈ credential_variables → environ w1 !! v = environ w2 !! v) →
  Boto3.check_session lib w1 (environ w1 !! "AWS_ACCESS_KEY_ID")
      (environ w1 !! "AWS_SECRET_ACCESS_KEY")
    = Boto3.check_session lib w2 (environ w1 !! "AWS_ACCESS_KEY_ID")
        (environ w1 !! "AWS_SECRET_ACCESS_KEY") →
  Boto3.check_resource lib w1 (session_of w1) "s3" (Boto3.MkConfig "s3v4")
      (environ w1 !! "AWS_S3_ENDPOINT") (environ w1 !! "AWS_DEFAULT_REGION")
    = Boto3.check_resource lib w2 (session_of w1) "s3"
        (Boto3.MkConfig "s3v4")
        (environ w1 !! "AWS_S3_ENDPOINT")
        (environ w1 !! "AWS_DEFAULT_REGION") →
  Boto3.check_bucket lib w1 (resource_of w1) (environ w1 !! "AWS_S3_BUCKET")
    = Boto3.check_bucket lib w2 (resource_of w1)
        (environ w1 !! "AWS_S3_BUCKET") →
  Boto3.transfer lib w1 (bucket_of w1) path (environ w1 !! "S3_KEY")
    = Boto3.transfer lib w2 (bucket_of w1) path (environ w1 !! "S3_KEY") →
  upload_model lib w1 path [] = upload_model lib w2 path [].
Proof.
  intros Hagree Hs Hr Hb Ht.
  assert (Hvar : ∀ v, v ∈ credential_variables →
            environ w2 !! v = environ w1 !! v).
  { intros v Hv. symmetry. by apply Hagree. }
  assert (H1 := Hvar "AWS_ACCESS_KEY_ID").
  assert (H2 := Hvar "AWS_SECRET_ACCESS_KEY").
  assert (H3 := Hvar "AWS_S3_ENDPOINT").
  assert (H4 := Hvar "AWS_DEFAULT_REGION").
  assert (H5 := Hvar "AWS_S3_BUCKET").
  assert (H6 := Hvar "S3_KEY").
  unfold credential_variables in H1, H2, H3, H4, H5, H6.
  rewrite !elem_of_cons in H1, H2, H3, H4, H5, H6.
  rewrite !upload_model_run.
  unfold bucket_of, resource_of, session_of in *.
  rewrite H1, H2, H3, H4, H5, H6 by auto 10.
  by rewrite Hs, Hr, Hb, Ht.
Qed.

Lemma upload_reads_only_its_six_variables_witness :
  upload_model Boto3.documented world_without_endpoint_variable
    "/tmp/model.onnx" []
  = upload_model Boto3.documented
      (World (<["HOME" := "/root"]> (environ world_without_endpoint_variable))
         (fs world_without_endpoint_variable))
      "/tmp/model.onnx" [].
Proof.
  apply (upload_reads_only_its_six_variables Boto3.documented
           world_without_endpoint_variable
           (World (<["HOME" := "/root"]>
                     (environ world_without_endpoint_variable))
              (fs world_without_endpoint_variable))
           "/tmp/model.onnx").
  - intros v Hv. unfold credential_variables in Hv.
    rewrite !elem_of_cons, elem_of_nil in Hv.
    destruct Hv as [->|[->|[->|[->|[->|[->|[]]]]]]]; by vm_compute.
  - by vm_compute.
  - by vm_compute.
  - by vm_compute.
  - by vm_compute.
Defined.

Lemma secret_map_lookup (k : string) :
  k ∈ secret_keys →
  (list_to_map ((λ k, (k, k)) <$> secret_keys) : gmap string string) !! k
    = Some k.
Proof.
  intros Hk. apply elem_of_list_to_map; [apply secret_keys_NoDup|].
  apply list_elem_of_fmap. by exists k.
Qed.

(** X13. The variables the pipeline declares for the uploader task (its
    environment variable and the targets of its secret mapping) are exactly
    the six variables the upload step reads; and in any environment that
    contains the task's declared variable, every request the step sends is
    for the key models/fraud/1/model.onnx. *)
Theorem pipeline_declares_what_upload_reads :
  ∃ fetcher trainer uploader,
    Kfp.compile pipeline = Ok [fetcher; trainer; uploader] ∧
    (∀ v, v ∈ credential_variables ↔
          v ∈ dom (Kfp.env uploader) ∨
          ∃ s k, s ∈ Kfp.secrets uploader ∧
                 Kfp.secret_key_to_env s !! k = Some v) ∧
    (∀ lib w path c,
       Kfp.env uploader ⊆ environ w →
       Extern c ∈ (upload_model lib w path []).2 →
       c = Boto3.PutObject (bucket_of w) path
             (Some "models/fraud/1/model.onnx")).
Proof.
  do 3 eexists. split; [apply pipeline_compiles|].
  cbn [Kfp.env Kfp.secrets]. split.
  - intros v. rewrite dom_insert_L, dom_empty_L. split.
    + assert (Hsecret : ∀ k, k ∈ secret_keys →
                ∃ s k', s ∈ [Kfp.SecretAsEnv "frauddetection-storage"
                               (list_to_map ((λ k, (k, k)) <$> secret_keys))]
                        ∧ Kfp.secret_key_to_env s !! k' = Some k).
      { intros k Hk. eexists _, k. split; [by apply list_elem_of_singleton|].
        cbn [Kfp.secret_key_to_env]. by apply secret_map_lookup. }
      unfold credential_variables. rewrite !elem_of_cons, elem_of_nil.
      intros [->|[->|[->|[->|[->|[->|[]]]]]]];
        [right; apply Hsecret..
        |left; apply elem_of_union; left; by apply elem_of_singleton];
        unfold secret_keys; rewrite !elem_of_cons; by auto 10.
    + intros [Hv|(s & k & ->%list_elem_of_singleton & Hk)].
      * apply elem_of_union in Hv as [->%elem_of_singleton|[]%elem_of_empty].
        unfold credential_variables. rewrite !elem_of_cons. by auto 10.
      * cbn [Kfp.secret_key_to_env] in Hk.
        apply elem_of_list_to_map in Hk; [|apply secret_keys_NoDup].
        apply list_elem_of_fmap in Hk as (k' & [= -> ->] & Hin).
        unfold secret_keys in Hin. unfold credential_variables.
        rewrite !elem_of_cons, elem_of_nil in *. intuition.
  - intros lib w path c Henv Hc.
    assert (Hkey : environ w !! "S3_KEY" = Some "models/fraud/1/model.onnx").
    { eapply lookup_weaken; [|exact Henv]. apply lookup_insert_eq. }
    revert Hc. rewrite upload_model_run, Hkey.
    destruct (Boto3.check_session lib _ _ _) as [[]|e1]; simpl;
      [destruct (Boto3.check_resource lib _ _ _ _ _ _) as [[]|e2]; simpl;
       [destruct (Boto3.check_bucket lib _ _ _) as [[]|e3]; simpl;
        [destruct (Boto3.transfer lib _ _ _ _) as [e4|r]; simpl|]|]|].
    all: rewrite ?elem_of_cons, ?elem_of_nil;
         intros Hc; repeat destruct Hc as [Hc|Hc]; try done;
         try discriminate Hc.
    by injection Hc as ->.
Qed.

(** ** The submission routine, end to end *)

Lemma main_run (kfp : KfpClient.service) (w : world) :
  main kfp w [] =
  match environ w !! "KUBEFLOW_ENDPOINT" with
  | None => (Raise (KeyError "KUBEFLOW_ENDPOINT"), [])
  | Some endpoint =>
      let ca := if isfile w sa_ca_cert && str_in "svc" endpoint
                then Some sa_ca_cert else None in
      let no_ca := match ca with
                   | Some _ => []
                   | None => [Printed "there is no ssl_ca_cert"]
                   end in
      let hello := Printed ("Connecting to kfp: " +:+ endpoint) in
      match fs w !! sa_token_path with
      | Some (File content) =>
          let c := KfpClient.MkClient endpoint (rstrip content) ca in
          let tr :=
            [hello; Extern (KfpClient.ReadFile sa_token_path)] ++ no_ca ++
            [Printed endpoint; Printed (rstrip content);
             Printed (str_of_optional ca); Extern (KfpClient.NewClient c)] in
          match KfpClient.connect kfp c with
          | Raise e => (Raise e, tr)
          | Ok _ =>
              let run := KfpClient.CreateRun c expected_pipeline
                           "fraud-detection" in
              match KfpClient.create_run kfp c expected_pipeline
                      "fraud-detection" with
              | Raise e => (Raise e, tr ++ [Extern run])
              | Ok run_id =>
                  (Ok tt,
                   tr ++ [Extern run;
                          Printed ("Starting pipeline run with run_id: "
                                   +:+ run_id)])
              end
          end
      | _ => (Raise (NameError "bearer_token"),
              [hello] ++ no_ca ++ [Printed endpoint])
      end
  end.
Proof.
  unfold main, read_bearer_token, choose_ssl_ca_cert, kfp_Client,
    create_run_from_pipeline_func, open_read, isfile. run.
  destruct (environ w !! "KUBEFLOW_ENDPOINT") as [endpoint|]; simpl; [|done].
  fold (isfile w sa_ca_cert). rewrite pipeline_compiles.
  destruct (fs w !! sa_token_path) as [[content|]|]; simpl.
  - destruct (isfile w sa_ca_cert && str_in "svc" endpoint); simpl;
      destruct (KfpClient.connect kfp _) as [[]|]; simpl; try done;
      by destruct (KfpClient.create_run kfp _ _ _).
  - by destruct (isfile w sa_ca_cert && str_in "svc" endpoint).
  - by destruct (isfile w sa_ca_cert && str_in "svc" endpoint).
Qed.

Ltac main_cases kfp w :=
  rewrite main_run; cbv zeta;
  destruct (environ w !! "KUBEFLOW_ENDPOINT") as [endpoint|] eqn:Hep;
    [destruct (fs w !! sa_token_path) as [[content|]|] eqn:Htok;
     [destruct (isfile w sa_ca_cert && str_in "svc" endpoint) eqn:Hca;
      (destruct (KfpClient.connect kfp _) as [[]|econn] eqn:Hconn;
       [destruct (KfpClient.create_run kfp _ _ _) as [run_id|erun] eqn:Hrun
       |])
     |destruct (isfile w sa_ca_cert && str_in "svc" endpoint) eqn:Hca
     |destruct (isfile w sa_ca_cert && str_in "svc" endpoint) eqn:Hca]
    |]; simpl.

(** X14. The submission routine submits at most one run; the run is the
    compiled pipeline under the experiment name fraud-detection, sent
    through a client that was created and whose creation succeeded. *)
Theorem main_submits_at_most_one_run (kfp : KfpClient.service) (w : world)
    (c : KfpClient.Client) (p : Kfp.pipeline_spec) (n : string) :
  let out := main kfp w [] in
  (c, p, n) ∈ submissions out.2 →
  submissions out.2 = [(c, p, n)] ∧
  n = "fraud-detection" ∧ p = expected_pipeline ∧
  Extern (KfpClient.NewClient c) ∈ out.2 ∧
  KfpClient.connect kfp c = Ok tt.
Proof.
  main_cases kfp w.
  all: try by intros ?%elem_of_nil.
  all: intros [= -> -> ->]%list_elem_of_singleton.
  all: do 3 (split; [done|]); split; [|done].
  all: rewrite !elem_of_cons; by auto 10.
Qed.

Lemma main_submits_at_most_one_run_witness :
  ∃ c, submissions (main accepting_service world_in_cluster []).2
       = [(c, expected_pipeline, "fraud-detection")].
Proof.
  eexists.
  refine (proj1 (main_submits_at_most_one_run accepting_service
                   world_in_cluster _ expected_pipeline "fraud-detection" _)).
  vm_compute. left.
Defined.

(** The model of [str.rstrip]. *)
Lemma rstrip_split (s : string) :
  ∃ ws, s = rstrip s +:+ ws ∧ Forall (λ ch, is_space ch = true) (chars ws).
Proof.
  induction s as [|ch s (ws & Hs & Hws)].
  - by exists "".
  - cbn [rstrip]. destruct (rstrip s) as [|ch' t] eqn:Ht.
    + destruct (is_space ch) eqn:Hch.
      * exists (String ch s). split; [done|]. rewrite append_nil in Hs.
        subst ws. by constructor.
      * exists ws. rewrite append_cons, append_nil. split; [|done].
        rewrite append_nil in Hs. by rewrite <- Hs.
    + exists ws. split; [|done]. rewrite append_cons. by rewrite <- Hs.
Qed.

Lemma rstrip_last (s : string) (ch : ascii) :
  last (chars (rstrip s)) = Some ch → is_space ch = false.
Proof.
  revert ch. induction s as [|c s IH]; intros ch; [done|].
  cbn [rstrip]. destruct (rstrip s) as [|c' t] eqn:Ht.
  - destruct (is_space c) eqn:Hc; [done|]. by intros [= <-].
  - change (chars (String c (String c' t))) with (c :: chars (String c' t)).
    change (chars (String c' t)) with (c' :: chars t) in *.
    rewrite last_cons_cons. apply IH.
Qed.

(** X15. The token of every client the routine makes is the content of the
    token file without its trailing whitespace, the whitespace being that
    of Python among the code points below 256 (the content is the token
    followed by whitespace only, and the token does not end in
    whitespace); the routine has printed this token to its output. *)
Theorem client_token_is_stripped_and_printed (kfp : KfpClient.service)
    (w : world) (c : KfpClient.Client) :
  let out := main kfp w [] in
  Extern (KfpClient.NewClient c) ∈ out.2 →
  ∃ content ws,
    fs w !! sa_token_path = Some (File content) ∧
    content = KfpClient.existing_token c +:+ ws ∧
    Forall (λ ch, is_space ch = true) (chars ws) ∧
    (∀ ch, last (chars (KfpClient.existing_token c)) = Some ch →
           is_space ch = false) ∧
    Printed (KfpClient.existing_token c) ∈ out.2.
Proof.
  main_cases kfp w.
  all: rewrite ?elem_of_cons, ?elem_of_nil; intros Hc;
       repeat destruct Hc as [Hc|Hc]; try done; try discriminate Hc.
  all: injection Hc as ->; cbn [KfpClient.existing_token];
       destruct (rstrip_split content) as (ws & Hsplit & Hws);
       exists content, ws; split; [done|]; split; [done|]; split; [done|];
       (split; [intros ch; apply rstrip_last|]);
       rewrite !elem_of_cons; by auto 10.
Qed.

Lemma client_token_is_stripped_and_printed_witness :
  ∃ c, Printed (KfpClient.existing_token c)
         ∈ (main accepting_service world_in_cluster []).2.
Proof.
  exists (KfpClient.MkClient "https://ds-pipeline-dspa.fraud.svc:8443"
            "sha256~token" (Some sa_ca_cert)).
  destruct (client_token_is_stripped_and_printed accepting_service
              world_in_cluster
              (KfpClient.MkClient "https://ds-pipeline-dspa.fraud.svc:8443"
                 "sha256~token" (Some sa_ca_cert)))
    as (content & ws & _ & _ & _ & _ & Hprinted).
  - vm_compute. do 5 right. left.
  - exact Hprinted.
Defined.

(** X16. The submission routine returns normally exactly when the
    endpoint variable is set, the token file is there, the client could be
    created and the run was accepted; its last output is then the line with
    the run id. *)
Theorem main_succeeds_iff_run_created (kfp : KfpClient.service) (w : world) :
  let out := main kfp w [] in
  out.1 = Ok tt ↔
  ∃ endpoint content run_id,
    environ w !! "KUBEFLOW_ENDPOINT" = Some endpoint ∧
    fs w !! sa_token_path = Some (File content) ∧
    let c := KfpClient.MkClient endpoint (rstrip content)
               (if isfile w sa_ca_cert && str_in "svc" endpoint
                then Some sa_ca_cert else None) in
    KfpClient.connect kfp c = Ok tt ∧
    KfpClient.create_run kfp c expected_pipeline "fraud-detection"
      = Ok run_id ∧
    last out.2 =
      Some (Printed ("Starting pipeline run with run_id: " +:+ run_id)).
Proof.
  main_cases kfp w.
  all: split.
  all: try discriminate.
  all: try (intros (ep & ct & id & Hep' & Htok' & Hc); cbv zeta in Hc;
            simplify_eq; rewrite ?Hca in Hc; destruct Hc as (Hc1 & Hc2 & _);
            congruence).
  all: intros _; eexists _, _, _; do 2 (split; [reflexivity|]); cbv zeta;
       rewrite ?Hca; split; [exact Hconn|]; split; [exact Hrun|];
       reflexivity.
Qed.

(** X17. An error from creating the client is raised unchanged and no run
    is submitted; an error from creating the run is raised unchanged after
    the one submission. *)
Theorem endpoint_errors_propagate (kfp : KfpClient.service) (w : world)
    (endpoint content : string) (e : exn) :
  environ w !! "KUBEFLOW_ENDPOINT" = Some endpoint →
  fs w !! sa_token_path = Some (File content) →
  let out := main kfp w [] in
  let c := KfpClient.MkClient endpoint (rstrip content)
             (if isfile w sa_ca_cert && str_in "svc" endpoint
              then Some sa_ca_cert else None) in
  (KfpClient.connect kfp c = Raise e →
     out.1 = Raise e ∧ submissions out.2 = []) ∧
  (KfpClient.connect kfp c = Ok tt →
   KfpClient.create_run kfp c expected_pipeline "fraud-detection" = Raise e →
     out.1 = Raise e ∧
     submissions out.2 = [(c, expected_pipeline, "fraud-detection")]).
Proof.
  intros Hep Htok. cbv zeta. rewrite main_run, Hep, Htok. cbv zeta.
  destruct (isfile w sa_ca_cert && str_in "svc" endpoint); simpl.
  all: destruct (KfpClient.connect kfp _) as [[]|econn]; simpl.
  all: try destruct (KfpClient.create_run kfp _ _ _) as [run_id|erun]; simpl.
  all: split; try discriminate; try done.
  all: try (by intros _ [= <-]).
  all: try (by intros [= <-]).
Qed.

Lemma endpoint_errors_propagate_witness :
  environ world_in_cluster !! "KUBEFLOW_ENDPOINT"
    = Some "https://ds-pipeline-dspa.fraud.svc:8443" ∧
  fs world_in_cluster !! sa_token_path = Some (File "sha256~token ") ∧
  (main unreachable_service world_in_cluster []).1
    = Raise (LibraryError "kfp" "connection refused") ∧
  submissions (main unreachable_service world_in_cluster []).2 = [].
Proof.
  split; [reflexivity|]. split; [reflexivity|].
  apply (endpoint_errors_propagate unreachable_service world_in_cluster
           "https://ds-pipeline-dspa.fraud.svc:8443" "sha256~token "
           (LibraryError "kfp" "connection refused") eq_refl eq_refl).
  reflexivity.
Defined.

Lemma pickled_scaler_is_fitted_witness :
  ∃ obj p,
    Extern (PickleDump "artifact/scaler.pkl" obj)
      ∈ history (train_model (ideal_libraries sqrt_52) sample_files
                   "train.csv" "validate.csv" "model.onnx" fresh).2 ∧
    obj = Some p.
Proof.
  destruct (train_model_reaches_pickle (ideal_libraries sqrt_52)
              sample_files "train.csv" "validate.csv" "model.onnx"
              sample_train sample_validate) as (p0 & Hin);
    [reflexivity|reflexivity|vm_compute; lia|vm_compute; lia|discriminate
    |reflexivity|].
  exists (Some p0).
  destruct (pickled_scaler_is_fitted _ _ _ _ _ _ _ Hin)
    as (_ & _ & _ & _ & p' & _ & _ & _ & Hobj).
  exists p'. by split.
Defined.

(** X7. The columns the trainer does not select play no part: two
    training tables of at least eight columns with the same selected
    feature cells and the same label column give the same run. *)
Theorem unselected_columns_do_not_matter (lib : libraries)
    (files files' : gmap string Pandas.DataFrame) (tp vp mp : string)
    (train train' : Pandas.DataFrame) :
  files !! tp = Some train → files' !! tp = Some train' →
  files !! vp = files' !! vp → tp ≠ vp →
  (8 ≤ length (Pandas.columns train))%nat →
  (8 ≤ length (Pandas.columns train'))%nat →
  features_of train = features_of train' →
  label_frame train = label_frame train' →
  train_model lib files tp vp mp fresh
  = train_model lib files' tp vp mp fresh.
Proof.
  intros Ht Ht' Hv Hne Hc Hc' Hf Hl.
  rewrite !train_model_run. cbv zeta.
  rewrite Ht, Ht', <- Hv, !decide_True by done.
  by rewrite Hf, Hl.
Qed.

Lemma unselected_columns_do_not_matter_witness :
  features_of sample_train = features_of sample_train_moved ∧
  label_frame sample_train = label_frame sample_train_moved ∧
  train_model (ideal_libraries sqrt_52) sample_files
    "train.csv" "validate.csv" "model.onnx" fresh
  = train_model (ideal_libraries sqrt_52)
      (<["train.csv" := sample_train_moved]> sample_files)
      "train.csv" "validate.csv" "model.onnx" fresh.
Proof.
  split; [reflexivity|]. split; [reflexivity|].
  apply (unselected_columns_do_not_matter (ideal_libraries sqrt_52)
           sample_files
           (<["train.csv" := sample_train_moved]> sample_files)
           "train.csv" "validate.csv" "model.onnx"
           sample_train sample_train_moved);
    [reflexivity|reflexivity|reflexivity|discriminate|vm_compute; lia
    |vm_compute; lia|reflexivity|reflexivity].
Defined.
